(** * PTT5 on ASSIN: the metric accumulator, the architecture dispatch and the
      numeric decoding of [assin/t5_assin.py]

    The development embeds the parts of [t5_assin.py] that carry logic of
    their own:

    - [PearsonCalculator] (lines 42-64), the running sequences of predictions
      and targets and the call into [scipy.stats.pearsonr];
    - [NONLinearInput] and the ["mlp"] branch of [T5ASSIN.forward]
      (lines 67-75 and 161-162);
    - [T5ASSIN.__init__] (lines 79-135), the choice of backbone, head and loss
      from [hparams.architecture];
    - the decoding loop of [T5ASSIN.validation_step] (lines 199-212) with
      Python's [str.split] and [float];
    - [validation_step] and [validation_epoch_end] (lines 193-268) as far as
      they touch the accumulator.

    The pretrained network, the tokenizer, the loss kernels of torch and
    [scipy.stats.pearsonr] are collaborators outside the repository: they
    enter as section variables. *)

From Stdlib Require Import ZArith List String Ascii Bool Lia SpecFloat.
Import ListNotations.

Set Implicit Arguments.

(** ** Python values *)

(** A Python [float] is an IEEE 754 binary64 number. *)
Definition float : Type := spec_float.

Definition prec : Z := 53.
Definition emax : Z := 1024.

Definition nan : float := S754_nan.
Definition zero : float := S754_zero false.

Definition is_nan (x : float) : bool :=
  match x with S754_nan => true | _ => false end.

(** [x < y], [x > y], [x <= y] and [x == y] of Python on floats. *)
Definition flt (x y : float) : bool := SFltb x y.
Definition fgt (x y : float) : bool := SFltb y x.
Definition fle (x y : float) : bool := SFleb x y.
Definition feq (x y : float) : bool := SFeqb x y.

(** The exceptions the embedded code can raise. *)
Inductive exn : Type :=
| AssertionError (msg : option string)
| ValueError (msg : string)
| RuntimeError (msg : string)
| IndexError (msg : string)
| KeyError (key : string)
| TypeError (msg : string)
| OSError (msg : string).

Inductive level : Type := INFO | WARNING.

(** ** State and exceptions

    A Python method mutates its object and may raise half way; what it has
    written by then stays written.  [M S A] threads the state through both
    exits. *)

Inductive outcome (S A : Type) : Type :=
| Returned (a : A) (s : S)
| Raised (e : exn) (s : S).

Arguments Returned {S A} a s.
Arguments Raised {S A} e s.

Definition M (S A : Type) : Type := S -> outcome S A.

Definition ret {S A} (a : A) : M S A := fun s => Returned a s.

Definition bind {S A B} (c : M S A) (k : A -> M S B) : M S B :=
  fun s => match c s with
           | Returned a s' => k a s'
           | Raised e s' => Raised e s'
           end.

Definition raise {S A} (e : exn) : M S A := fun s => Raised e s.

Definition assert_ {S} (b : bool) (msg : option string) : M S unit :=
  if b then ret tt else raise (AssertionError msg).

Declare Scope py_scope.
Notation "x <- c ;; k" := (bind c (fun x => k))
  (at level 61, c at next level, right associativity) : py_scope.
Notation "c ;; k" := (bind c (fun _ => k))
  (at level 61, right associativity) : py_scope.

Definition final_state {S A} (o : outcome S A) : S :=
  match o with Returned _ s => s | Raised _ s => s end.

Definition raised {S A} (o : outcome S A) : bool :=
  match o with Returned _ _ => false | Raised _ _ => true end.

(** ** numpy arrays

    An array is its shape and its elements in row-major order.  The running
    sequences of the accumulator start as the Python list [[]], which
    [np.concatenate] reads as the empty array of shape [(0,)]. *)

Record ndarray : Type := mk_ndarray { shape : list nat; data : list float }.

Definition ndim (a : ndarray) : nat := List.length (shape a).

(** The length of the first axis, and [len(a)], which is a [TypeError] on
    an array without axes. *)
Definition len (a : ndarray) : nat := hd 0 (shape a).

Definition py_len (a : ndarray) : exn + nat :=
  match shape a with
  | [] => inl (TypeError "len() of unsized object")
  | n :: _ => inr n
  end.

Definition size_of (sh : list nat) : nat := fold_right Nat.mul 1 sh.

(** A one-dimensional array from its elements. *)
Definition array1 (l : list float) : ndarray := mk_ndarray [List.length l] l.

Definition empty_list : ndarray := array1 [].

Definition shape_eqb (s t : list nat) : bool :=
  if list_eq_dec Nat.eq_dec s t then true else false.

(** [np.concatenate((a, b))] along axis 0. *)
Definition np_concatenate (a b : ndarray) : exn + ndarray :=
  match shape a, shape b with
  | [], _ | _, [] =>
      inl (ValueError "zero-dimensional arrays cannot be concatenated")
  | n :: sa, m :: sb =>
      if negb (Nat.eqb (List.length sa) (List.length sb)) then
        inl (ValueError "all the input arrays must have same number of dimensions")
      else if negb (shape_eqb sa sb) then
        inl (ValueError "all the input array dimensions except for the concatenation axis must match exactly")
      else inr (mk_ndarray ((n + m) :: sa) (data a ++ data b))
  end.

Definition lift {S A} (r : exn + A) : M S A :=
  match r with inl e => raise e | inr a => ret a end.

(** ** PearsonCalculator (lines 42-64) *)

Record PearsonCalculator : Type := mk_PearsonCalculator {
  y_hat : ndarray;
  y : ndarray
}.

Definition set_y_hat (v : ndarray) (self : PearsonCalculator) :=
  mk_PearsonCalculator v (y self).
Definition set_y (v : ndarray) (self : PearsonCalculator) :=
  mk_PearsonCalculator (y_hat self) v.

(** The process: the accumulator of the model and the records handed to
    [logging]. *)
Record world : Type := mk_world {
  pearson_calculator : PearsonCalculator;
  logged : list (level * string)
}.

Definition modify_calc (f : PearsonCalculator -> PearsonCalculator) : M world unit :=
  fun w => Returned tt (mk_world (f (pearson_calculator w)) (logged w)).

Definition read_calc {A} (f : PearsonCalculator -> A) : M world A :=
  fun w => Returned (f (pearson_calculator w)) w.

Definition logging (l : level) (msg : string) : M world unit :=
  fun w => Returned tt (mk_world (pearson_calculator w) (logged w ++ [(l, msg)])).

Definition logging_warning := logging WARNING.
Definition logging_info := logging INFO.

(** [PearsonCalculator.__init__] *)
Definition PearsonCalculator_init : PearsonCalculator :=
  mk_PearsonCalculator empty_list empty_list.

Local Open Scope py_scope.

(** [PearsonCalculator.__call__] *)
Definition PearsonCalculator_call (y_hat' y' : ndarray) : M world unit :=
  assert_ (Nat.eqb (List.length (shape y_hat')) 1) None ;;
  assert_ (Nat.eqb (List.length (shape y')) 1) None ;;
  old_y_hat <- read_calc y_hat ;;
  new_y_hat <- lift (np_concatenate old_y_hat y_hat') ;;
  modify_calc (set_y_hat new_y_hat) ;;
  old_y <- read_calc y ;;
  new_y <- lift (np_concatenate old_y y') ;;
  modify_calc (set_y new_y).

Section Pearson.

(** [scipy.stats.pearsonr]: the coefficient and the p-value, or the
    exception it raises. *)
Variable pearsonr : ndarray -> ndarray -> exn + (float * float).

(** [PearsonCalculator.calculate_pearson] *)
Definition calculate_pearson : M world float :=
  ys0 <- read_calc y ;;
  n <- lift (py_len ys0) ;;
  r <- (if Nat.ltb n 2 then
          logging_warning "Pearson does not have enough samples, returning nan" ;;
          ret nan
        else
          ys <- read_calc y ;;
          y_hats <- read_calc y_hat ;;
          p <- lift (pearsonr ys y_hats) ;;
          ret (fst p)) ;;
  modify_calc (set_y_hat empty_list) ;;
  modify_calc (set_y empty_list) ;;
  ret r.

(** The operations a client can run on the accumulator. *)
Inductive Op : Type :=
| Observe (y_hat' y' : ndarray)
| ComputeAndReset.

Definition run_op (o : Op) : M world unit :=
  match o with
  | Observe y_hat' y' => PearsonCalculator_call y_hat' y'
  | ComputeAndReset => _ <- calculate_pearson ;; ret tt
  end.

(** The state after a run of operations; an operation that raises leaves
    the state it had reached and the run goes on. *)
Definition run_ops (ops : list Op) (w : world) : world :=
  fold_left (fun w o => final_state (run_op o w)) ops w.

End Pearson.

(** One call of the accumulator per pair, in order. *)
Fixpoint observe_all (obs : list (ndarray * ndarray)) : M world unit :=
  match obs with
  | [] => ret tt
  | (p, t) :: rest => PearsonCalculator_call p t ;; observe_all rest
  end.

(** The one-dimensional arrays of a list, end to end. *)
Definition concat_arrays (l : list ndarray) : ndarray :=
  mk_ndarray [list_sum (map len l)] (List.concat (map data l)).

Definition fresh (lg : list (level * string)) : world :=
  mk_world PearsonCalculator_init lg.

(** ** Python strings

    A [str] is read as its sequence of code points, here below 256. *)

Local Open Scope char_scope.

Definition code (c : ascii) : N := N_of_ascii c.

(** [str.isspace] on one code point below 256: the characters [str.split]
    cuts at. *)
Definition isspace (c : ascii) : bool :=
  let n := code c in
  ((9 <=? n) && (n <=? 13) || (28 <=? n) && (n <=? 32) || (n =? 133) || (n =? 160))%N.

(** [str.split()] without arguments: the maximal runs of non-space
    characters, left to right.  [word] is the run being read. *)
Fixpoint split_from (word : option string) (s : string) : list string :=
  match s with
  | EmptyString => match word with Some w => [w] | None => [] end
  | String c rest =>
      if isspace c then
        match word with
        | Some w => w :: split_from None rest
        | None => split_from None rest
        end
      else
        match word with
        | Some w => split_from (Some (w ++ String c EmptyString)%string) rest
        | None => split_from (Some (String c EmptyString)) rest
        end
  end.

Definition split (s : string) : list string := split_from None s.

(** ** Python's [float(str)]

    [PyFloat_FromString]: non-ASCII spaces become [" "] and other non-ASCII
    characters ["?"]; single underscores between digits are dropped; blanks
    around the literal are stripped; then [_PyOS_ascii_strtod] must consume
    all of it: a decimal literal, or [inf], [infinity], [nan] in any case. *)

Definition is_digit (c : ascii) : bool := ((48 <=? code c) && (code c <=? 57))%N.

Definition digit_value (c : ascii) : Z := Z.of_N (code c) - 48.

(** [Py_ISSPACE] *)
Definition Py_ISSPACE (c : ascii) : bool :=
  let n := code c in ((9 <=? n) && (n <=? 13) || (n =? 32))%N.

(** [Py_TOLOWER] *)
Definition Py_TOLOWER (c : ascii) : ascii :=
  if ((65 <=? code c) && (code c <=? 90))%N then ascii_of_N (code c + 32) else c.

(** [_PyUnicode_TransformDecimalAndSpaceToASCII] on one code point below
    256, none of which is a decimal digit outside ASCII.  (CPython also cuts
    the string after the first ["?"]; the parse fails on it either way.) *)
Definition transform_decimal_and_space (c : ascii) : ascii :=
  if (code c <? 127)%N then c
  else if isspace c then " "
  else "?".

(** The scan of [_Py_string_to_number_with_underscores]; [prev] is the
    character before [s]. *)
Fixpoint drop_underscores (prev : ascii) (s : list ascii) : option (list ascii) :=
  match s with
  | [] => if Ascii.eqb prev "_" then None else Some []
  | c :: rest =>
      if Ascii.eqb c "_" then
        if is_digit prev then drop_underscores c rest else None
      else if Ascii.eqb prev "_" && negb (is_digit c) then None
      else option_map (cons c) (drop_underscores c rest)
  end.

Fixpoint lstrip (s : list ascii) : list ascii :=
  match s with
  | c :: rest => if Py_ISSPACE c then lstrip rest else s
  | [] => []
  end.

(** The two stripping loops of [float_from_string_inner]; the second one
    leaves the last remaining character in place. *)
Definition rstrip_keep1 (s : list ascii) : list ascii :=
  match s with
  | [] => []
  | c :: rest => c :: rev (lstrip (rev rest))
  end.

Definition strip (s : list ascii) : list ascii := rstrip_keep1 (lstrip s).

Fixpoint span_digits (s : list ascii) : list ascii * list ascii :=
  match s with
  | c :: rest =>
      if is_digit c then let (ds, r) := span_digits rest in (c :: ds, r)
      else ([], s)
  | [] => ([], [])
  end.

Definition digits_value (ds : list ascii) : Z :=
  fold_left (fun acc c => 10 * acc + digit_value c)%Z ds 0%Z.

Definition take_sign (s : list ascii) : bool * list ascii :=
  match s with
  | "-" :: rest => (true, rest)
  | "+" :: rest => (false, rest)
  | _ => (false, s)
  end.

(** [case_insensitive_match]: [t] is in lower case; the rest of [s] after
    the match. *)
Fixpoint case_insensitive_match (s t : list ascii) : option (list ascii) :=
  match t with
  | [] => Some s
  | d :: t' =>
      match s with
      | c :: s' => if Ascii.eqb (Py_TOLOWER c) d then case_insensitive_match s' t' else None
      | [] => None
      end
  end.

Local Open Scope Z_scope.

(** The binary64 number nearest to [m * 10^e] ([m >= 0]), ties to even, with
    the sign [neg]: the correctly rounded result of [_Py_dg_strtod]. *)
Definition round_decimal (neg : bool) (m e : Z) : float :=
  let signed := fun v => if neg then Z.opp v else v in
  if m =? 0 then S754_zero neg
  else if 0 <=? e then binary_normalize prec emax (signed (m * 10 ^ e)) 0 neg
  else
    let d := 10 ^ (- e) in
    let k := Z.max 0 (Z.log2 d - Z.log2 m + 66) in
    let q := (m * 2 ^ k) / d in
    let sticky := if (m * 2 ^ k) mod d =? 0 then 0 else 1 in
    binary_normalize prec emax (signed (2 * q + sticky)) (- (k + 1)) neg.

Definition MAX_DIGITS : Z := 1000000000.

Fixpoint drop_zeros (ds : list ascii) : list ascii :=
  match ds with
  | c :: rest => if Ascii.eqb c "0" then drop_zeros rest else ds
  | [] => []
  end.

(** The parse of [_Py_dg_strtod]: the value and the unread rest, or [None]
    when no digit was read (or there are too many of them). *)
Definition dg_strtod (s : list ascii) : option (float * list ascii) :=
  let (neg, s1) := take_sign s in
  let (ipart, s2) := span_digits s1 in
  let (fpart, s3) :=
    match s2 with
    | "." :: r => span_digits r
    | _ => ([], s2)
    end in
  let ndigits := Z.of_nat (List.length (drop_zeros (ipart ++ fpart))) in
  let fraclen := Z.of_nat (List.length fpart) in
  match ipart ++ fpart with
  | [] => None
  | _ :: _ =>
      if (MAX_DIGITS <? ndigits) || (MAX_DIGITS <? fraclen) then None
      else
        let (e, s4) :=
          match s3 with
          | c :: r =>
              if Ascii.eqb c "e" || Ascii.eqb c "E" then
                let (eneg, r1) := take_sign r in
                let (eds, r2) := span_digits r1 in
                match eds with
                | [] => (0, s3)
                | _ :: _ => (if eneg then - digits_value eds else digits_value eds, r2)
                end
              else (0, s3)
          | [] => (0, s3)
          end in
        Some (round_decimal neg (digits_value (ipart ++ fpart)) (e - fraclen), s4)
  end.

(** [_Py_parse_inf_or_nan] *)
Definition parse_inf_or_nan (s : list ascii) : option (float * list ascii) :=
  let (neg, s1) := take_sign s in
  match case_insensitive_match s1 ["i"; "n"; "f"]%char with
  | Some r =>
      match case_insensitive_match r ["i"; "n"; "i"; "t"; "y"]%char with
      | Some r' => Some (S754_infinity neg, r')
      | None => Some (S754_infinity neg, r)
      end
  | None =>
      match case_insensitive_match s1 ["n"; "a"; "n"]%char with
      | Some r => Some (nan, r)
      | None => None
      end
  end.

(** [_PyOS_ascii_strtod] *)
Definition ascii_strtod (s : list ascii) : option (float * list ascii) :=
  match dg_strtod s with
  | Some r => Some r
  | None => parse_inf_or_nan s
  end.

(** [float(s)] for a [str]: the number, or [ValueError]. *)
Definition py_float (s : string) : exn + float :=
  let failure := inl (ValueError "could not convert string to float") in
  let t := map transform_decimal_and_space (list_ascii_of_string s) in
  match drop_underscores Ascii.zero t with
  | None => failure
  | Some u =>
      match ascii_strtod (strip u) with
      | Some (x, []) => inr x
      | _ => failure
      end
  end.

Local Close Scope Z_scope.
Local Close Scope char_scope.
Local Open Scope string_scope.

(** ** The decoding loop of [validation_step] (lines 199-212) *)

(** The literals [5.0] and [1.0] of the source. *)
Definition five : float := S754_finite false 5629499534213120 (-50).
Definition one : float := S754_finite false 4503599627370496 (-52).

(** Modelled from the spec: the element type of [original_number], and so of
    [y_hat = torch.zeros_like(original_number)], is fixed by
    [assin_dataset.py], which is not among the sources; the spec has the
    decoder return the parsed number unchanged, so storing a number into the
    tensor keeps its binary64 value. *)
Definition tensor_cast (x : float) : float := x.

(** [torch.zeros_like] *)
Definition zeros_like (t : ndarray) : ndarray :=
  mk_ndarray (shape t) (map (fun _ => zero) (data t)).

(** [t[n] = v]: the [n]-th slice along the first axis is filled with [v]. *)
Definition setitem (t : ndarray) (n : nat) (v : float) : exn + ndarray :=
  match shape t with
  | [] => inl (IndexError "invalid index of a 0-dim tensor")
  | n0 :: rest =>
      if Nat.ltb n n0 then
        let sz := size_of rest in
        inr (mk_ndarray (shape t)
               (firstn (n * sz) (data t) ++ repeat (tensor_cast v) sz
                  ++ skipn ((n + 1) * sz) (data t)))
      else inl (IndexError "index out of range")
  end.

(** The inner loop: [for word in phrase.split(): try: ... break / except
    ValueError: pass]. *)
Fixpoint decode_words (words : list string) (n : nat) (y_hat : ndarray)
  : exn + ndarray :=
  match words with
  | [] => inr y_hat
  | word :: rest =>
      match py_float word with
      | inr number =>
          let number :=
            if fgt number five then five
            else if flt number one then one
            else number in
          setitem y_hat n number
      | inl (ValueError _) => decode_words rest n y_hat
      | inl e => inl e
      end
  end.

(** The outer loop: [for n, phrase in enumerate(string_y_hat)]. *)
Fixpoint decode_phrases (string_y_hat : list string) (n : nat) (y_hat : ndarray)
  : exn + ndarray :=
  match string_y_hat with
  | [] => inr y_hat
  | phrase :: rest =>
      match decode_words (split phrase) n y_hat with
      | inr y_hat' => decode_phrases rest (S n) y_hat'
      | inl e => inl e
      end
  end.

Definition decode_generated (string_y_hat : list string) (original_number : ndarray)
  : exn + ndarray :=
  decode_phrases string_y_hat 0 (zeros_like original_number).

(** The numeric decoder of one text: the loop on a batch of one phrase, read
    back at index 0. *)
Definition decode (text : string) : exn + float :=
  match decode_generated [text] (array1 [zero]) with
  | inr t => match data t with
             | v :: _ => inr v
             | [] => inl (IndexError "index out of range")
             end
  | inl e => inl e
  end.

(** The decoder in the words of the spec: the first token that parses,
    clamped, or [0.0]. *)
Definition parses (word : string) : option float :=
  match py_float word with inr x => Some x | inl _ => None end.

Fixpoint first_parseable (words : list string) : option float :=
  match words with
  | [] => None
  | word :: rest =>
      match parses word with
      | Some x => Some x
      | None => first_parseable rest
      end
  end.

Definition clamp (x : float) : float :=
  if fgt x five then five else if flt x one then one else x.

Definition NumericDecoder_decode (text : string) : float :=
  match first_parseable (split text) with
  | Some x => clamp x
  | None => zero
  end.

Definition in_range (x : float) : bool := fle one x && fle x five.

(** ** [T5ASSIN.__init__] (lines 79-135) *)

Record Hparams : Type := mk_Hparams {
  vocab_name : string;
  model_name : string;
  architecture : string;
  seq_len : Z;
  nout : Z;
  checkpoint_path : option string
}.

Record PretrainedConfig : Type := mk_PretrainedConfig { d_model : Z }.

(** The shape of an [nn.Linear]; its weights are drawn at random. *)
Record Linear : Type := mk_Linear { in_features : Z; out_features : Z }.

Inductive T5Class : Type := T5ForConditionalGeneration | T5Model.

(** What [self.t5] holds. *)
Inductive Backbone : Type :=
| T5 (cls : T5Class) (config : PretrainedConfig)
| NONLinearInput (net : Linear).

Inductive Loss : Type := CrossEntropyLoss | MSELoss.

Definition CONFIG_PATH : string := "T5_configs_json".

(** [s.split(sep)] for a separator of one character. *)
Fixpoint split_on (sep : ascii) (cur s : string) : list string :=
  match s with
  | EmptyString => [cur]
  | String c rest =>
      if Ascii.eqb c sep then cur :: split_on sep "" rest
      else split_on sep (cur ++ String c "") rest
  end.

(** [x in l] for strings *)
Definition str_in (x : string) (l : list string) : bool := existsb (String.eqb x) l.

Definition ends_with_slash (s : string) : bool :=
  match rev (list_ascii_of_string s) with
  | c :: _ => Ascii.eqb c "/"
  | [] => false
  end.

(** [os.path.join(a, b)] of [posixpath] *)
Definition os_path_join (a b : string) : string :=
  match b with
  | String "/" _ => b
  | _ => if String.eqb a "" || ends_with_slash a then a ++ b else a ++ "/" ++ b
  end.

(** [nn.Linear(nin, nout)] *)
Definition nn_Linear (nin nout : Z) : exn + Linear :=
  if (nin <? 0)%Z || (nout <? 0)%Z then
    inl (RuntimeError "Trying to create tensor with negative dimension")
  else inr (mk_Linear nin nout).

(** The paths of a list as the f-string prints them. *)
Definition repr_paths (l : list string) : string :=
  "[" ++ String.concat ", " (map (fun p => "'" ++ p ++ "'") l) ++ "]".

Section Init.

(** The tokenizers, the file system and the loaders of [transformers] and
    [torch]. *)
Variable Tokenizer : Type.
Variable get_custom_vocab : exn + Tokenizer.
Variable T5Tokenizer_from_pretrained : string -> exn + Tokenizer.
Variable glob : string -> list string.
Variable StateDict : Type.
Variable PretrainedConfig_from_json_file : string -> exn + PretrainedConfig.
Variable torch_load : string -> exn + StateDict.
(** [cls.from_pretrained(name)], or
    [cls.from_pretrained(None, config=config, state_dict=state_dict)]: the
    configuration of the loaded network. *)
Variable from_pretrained :
  T5Class -> string + PretrainedConfig * StateDict -> exn + PretrainedConfig.

Record T5ASSIN : Type := mk_T5ASSIN {
  hparams : Hparams;
  tokenizer : Tokenizer;
  size : string;
  t5 : Backbone;
  linear : option Linear;
  loss : Loss
}.

(** [T5ASSIN.get_ptt5] *)
Definition get_ptt5 (hparams : Hparams) (size : string)
  : M world (PretrainedConfig * StateDict) :=
  dir <- match checkpoint_path hparams with
         | Some d => ret d
         | None => raise (TypeError "expected str, bytes or os.PathLike object, not NoneType")
         end ;;
  let ckpt_paths := glob (os_path_join dir (model_name hparams ++ "*")) in
  let config_paths := glob (os_path_join CONFIG_PATH ("ptt5*" ++ size ++ "*")) in
  assert_ (Nat.eqb (List.length ckpt_paths) 1 && Nat.eqb (List.length config_paths) 1)
    (Some ("Are the config/ckpts on the correct path?"
             ++ repr_paths ckpt_paths ++ " " ++ repr_paths config_paths)) ;;
  let config_path := hd "" config_paths in
  let ckpt_path := hd "" ckpt_paths in
  logging_info ("Loading initial ckpt from " ++ ckpt_path) ;;
  logging_info ("Loading config from " ++ config_path) ;;
  config <- lift (PretrainedConfig_from_json_file config_path) ;;
  state_dict <- lift (torch_load ckpt_path) ;;
  ret (config, state_dict).

Definition generative (arch : string) : bool := str_in arch ["gen"; "categoric_gen"].

(** The class [__init__] loads: lines 100-107 and 110-113. *)
Definition backbone_class (arch : string) : T5Class :=
  if generative arch then T5ForConditionalGeneration else T5Model.

(** Lines 88-95: the size named in [model_name]. *)
Definition detect_size (name : string) : exn + string :=
  let parts := split_on "-" "" name in
  if str_in "small" parts then inr "small"
  else if str_in "base" parts then inr "base"
  else if str_in "large" parts then inr "large"
  else inl (ValueError "Couldn't detect model size from model_name.").

(** Lines 83-86: the tokenizer. *)
Definition load_tokenizer (hparams : Hparams) : exn + Tokenizer :=
  if String.eqb (vocab_name hparams) "custom" then get_custom_vocab
  else T5Tokenizer_from_pretrained (vocab_name hparams).

(** Lines 97-113: the pretrained network, from a PTT5 checkpoint on disk
    or by its name; the result is [self.t5.config]. *)
Definition load_backbone (hparams : Hparams) (size : string)
  : M world PretrainedConfig :=
  if String.eqb (substring 0 2 (model_name hparams)) "pt" then
    logging_info "Initializing from PTT5 checkpoint..." ;;
    cs <- get_ptt5 hparams size ;;
    lift (from_pretrained (backbone_class (architecture hparams)) (inr cs))
  else
    logging_info "Initializing from T5 checkpoint..." ;;
    lift (from_pretrained (backbone_class (architecture hparams))
            (inl (model_name hparams))).

(** [T5ASSIN.__init__] *)
Definition T5ASSIN_init (hparams : Hparams) : M world T5ASSIN :=
  tokenizer <- lift (load_tokenizer hparams) ;;
  size <- lift (detect_size (model_name hparams)) ;;
  loaded <- load_backbone hparams size ;;
  let D := d_model loaded in
  t5 <- (if String.eqb (architecture hparams) "mlp" then
           net <- lift (nn_Linear (seq_len hparams) D) ;;
           ret (NONLinearInput net)
         else ret (T5 (backbone_class (architecture hparams)) loaded)) ;;
  linear <- (if negb (generative (architecture hparams)) then
               if String.eqb (architecture hparams) "categoric" then
                 assert_ (negb (Z.eqb (nout hparams) 1))
                   (Some "Categoric mode with 1 nout doesn't work with CrossEntropyLoss") ;;
                 l <- lift (nn_Linear D (nout hparams)) ;;
                 ret (Some l)
               else
                 l <- lift (nn_Linear D 1) ;;
                 ret (Some l)
             else ret None) ;;
  let loss := if str_in (architecture hparams) ["categoric"; "categoric_gen"]
              then CrossEntropyLoss else MSELoss in
  modify_calc (fun _ => PearsonCalculator_init) ;;
  logging_info "Initialization done." ;;
  ret (mk_T5ASSIN hparams tokenizer size t5 linear loss).

End Init.

(** ** The validation hooks (lines 158-268) *)

(** A batch of the data loader: [input_ids, attention_mask, y,
    original_number]. *)
Module Batch.
Record t : Type := mk {
  input_ids : list (list Z);
  attention_mask : list (list Z);
  y : list (list Z);
  original_number : ndarray
}.
End Batch.

(** What [self(batch)] returns: a tensor, or the generated token rows. *)
Inductive Output : Type :=
| Tensor (t : ndarray)
| Tokens (rows : list (list Z)).

(** A Python [dict] from names to scalars, in insertion order. *)
Definition dict : Type := list (string * float).

Fixpoint dict_get (d : dict) (key : string) : exn + float :=
  match d with
  | [] => inl (KeyError key)
  | (k, v) :: rest => if String.eqb k key then inr v else dict_get rest key
  end.

(** The dictionary [validation_epoch_end] returns: its scalar entries, and
    the entries ['log'] and ['progress_bar']. *)
Record EpochEnd : Type := mk_EpochEnd {
  scalars : dict;
  log : dict;
  progress_bar : dict
}.

(** [t.squeeze(-1)] *)
Definition squeeze_last (t : ndarray) : ndarray :=
  match rev (shape t) with
  | 1 :: r => mk_ndarray (rev r) (data t)
  | _ => t
  end.

(** [str.strip()] *)
Fixpoint str_lstrip (s : list ascii) : list ascii :=
  match s with
  | c :: rest => if isspace c then str_lstrip rest else s
  | [] => []
  end.

Definition str_strip (s : string) : string :=
  string_of_list_ascii (rev (str_lstrip (rev (str_lstrip (list_ascii_of_string s))))).

Fixpoint mapM {S A B} (f : A -> M S B) (l : list A) : M S (list B) :=
  match l with
  | [] => ret []
  | a :: rest => b <- f a ;; bs <- mapM f rest ;; ret (b :: bs)
  end.

(** The network behind the branches of [forward], as torch evaluates it with
    the current weights: [self.linear(self.t5(input_ids))] of the ["mlp"]
    branch, [self.linear(self.t5(...)[0].mean(dim=1))], the language-model
    loss, [self.t5.generate(...)] and [1 + t.sigmoid() * 4] on a tensor. *)
Record Network : Type := mk_Network {
  mlp_head : list (list Z) -> exn + ndarray;
  pooled_head : list (list Z) -> list (list Z) -> exn + ndarray;
  lm_loss : list (list Z) -> list (list Z) -> list (list Z) -> exn + ndarray;
  generate : list (list Z) -> list (list Z) -> exn + list (list Z);
  squash : ndarray -> ndarray
}.

Section Hooks.

Variable pearsonr : ndarray -> ndarray -> exn + (float * float).

Variable Tokenizer : Type.
Variable tokenizer_decode : Tokenizer -> list Z -> string.

(** The network with the weights it has during this epoch. *)
Variable net : Network.

(** [self.loss(y_hat, original_number)], the accuracy of the arg-max
    classes and the mean of a list of scalars. *)
Variable loss_fn : Loss -> ndarray -> ndarray -> exn + float.
Variable argmax_accuracy : ndarray -> ndarray -> exn + float.
Variable tensor_mean : list float -> float.

(** The model the hooks belong to. *)
Variable self : T5ASSIN Tokenizer.

Let arch : string := architecture (hparams self).
Let tok : Tokenizer := tokenizer self.
Let self_loss : Loss := loss self.

(** [T5ASSIN.forward]; [training] is [self.training]. *)
Definition forward (training : bool) (x : Batch.t) : exn + Output :=
  let input_ids := Batch.input_ids x in
  let attention_mask := Batch.attention_mask x in
  if String.eqb arch "mlp" then
    match mlp_head net input_ids with inr t => inr (Tensor t) | inl e => inl e end
  else if String.eqb arch "categoric" then
    match pooled_head net input_ids attention_mask with
    | inr t => inr (Tensor t) | inl e => inl e end
  else if str_in arch ["gen"; "categoric_gen"] then
    if training then
      match lm_loss net input_ids attention_mask (Batch.y x) with
      | inr t => inr (Tensor t) | inl e => inl e end
    else
      match generate net input_ids attention_mask with
      | inr rows => inr (Tokens rows) | inl e => inl e end
  else
    match pooled_head net input_ids attention_mask with
    | inr t => inr (Tensor (squash net t)) | inl e => inl e end.

Definition as_tokens (o : Output) : exn + list (list Z) :=
  match o with
  | Tokens rows => inr rows
  | Tensor _ => inl (TypeError "iteration over a 0-d tensor")
  end.

Definition as_tensor (o : Output) : exn + ndarray :=
  match o with
  | Tensor t => inr t
  | Tokens _ => inl (TypeError "expected a tensor")
  end.

(** [torch.stack([x[key] for x in outputs]).mean()] *)
Definition stack_mean (key : string) (outputs : list dict) : M world float :=
  vals <- mapM (fun x => lift (dict_get x key)) outputs ;;
  match vals with
  | [] => raise (RuntimeError "stack expects a non-empty TensorList")
  | _ :: _ => ret (tensor_mean vals)
  end.

Definition bool_to_float (b : bool) : float := if b then one else zero.

(** [T5ASSIN.validation_step]; the harness runs it with [self.training]
    off. *)
Definition validation_step (batch : Batch.t) (batch_idx : nat) : M world dict :=
  let y := Batch.y batch in
  let original_number := Batch.original_number batch in
  if String.eqb arch "gen" then
    out <- lift (forward false batch) ;;
    pred_tokens <- lift (as_tokens out) ;;
    let string_y_hat := map (tokenizer_decode tok) pred_tokens in
    y_hat <- lift (decode_generated string_y_hat original_number) ;;
    loss <- lift (loss_fn self_loss y_hat original_number) ;;
    ret [("loss", loss)]
  else if String.eqb arch "categoric_gen" then
    out <- lift (forward false batch) ;;
    pred_tokens <- lift (as_tokens out) ;;
    let string_y_hat := map (fun pred => str_strip (tokenizer_decode tok pred)) pred_tokens in
    let string_y := map (fun target_y => str_strip (tokenizer_decode tok target_y)) y in
    let acc := tensor_mean (map (fun p => bool_to_float (String.eqb (fst p) (snd p)))
                              (combine string_y_hat string_y)) in
    ret [("acc", acc)]
  else if String.eqb arch "categoric" then
    out <- lift (forward false batch) ;;
    y_hat <- lift (as_tensor out) ;;
    loss <- lift (loss_fn self_loss y_hat original_number) ;;
    acc <- lift (argmax_accuracy y_hat original_number) ;;
    ret [("loss", loss); ("acc", acc)]
  else
    out <- lift (forward false batch) ;;
    t <- lift (as_tensor out) ;;
    let y_hat := squeeze_last t in
    loss <- lift (loss_fn self_loss y_hat original_number) ;;
    PearsonCalculator_call y_hat original_number ;;
    ret [("loss", loss)].

(** [T5ASSIN.validation_epoch_end] *)
Definition validation_epoch_end (outputs : list dict) : M world EpochEnd :=
  let name := "val_" in
  if String.eqb arch "categoric" then
    loss <- stack_mean "loss" outputs ;;
    acc <- stack_mean "acc" outputs ;;
    let logs := [(name ++ "loss", loss); (name ++ "acc", acc)] in
    ret (mk_EpochEnd [(name ++ "loss", loss); (name ++ "acc", acc)] logs logs)
  else if String.eqb arch "categoric_gen" then
    acc <- stack_mean "acc" outputs ;;
    let logs := [(name ++ "acc", acc)] in
    ret (mk_EpochEnd [(name ++ "acc", acc)] logs logs)
  else
    loss <- stack_mean "loss" outputs ;;
    pearson <- calculate_pearson pearsonr ;;
    let logs := [(name ++ "loss", loss); (name ++ "pearson", pearson)] in
    ret (mk_EpochEnd [(name ++ "loss", loss)] logs logs).

(** The validation loop of the training harness: the step hook on every
    batch in order, then the epoch-end hook on the collected outputs. *)
Fixpoint validation_steps (batches : list Batch.t) (batch_idx : nat)
  : M world (list dict) :=
  match batches with
  | [] => ret []
  | b :: rest =>
      o <- validation_step b batch_idx ;;
      os <- validation_steps rest (S batch_idx) ;;
      ret (o :: os)
  end.

Definition validation_epoch (batches : list Batch.t) : M world EpochEnd :=
  outputs <- validation_steps batches 0 ;;
  validation_epoch_end outputs.

End Hooks.

(** Successive validation epochs of one model: the weights, and so the
    network, change from one epoch to the next with the training steps in
    between, which do not touch the accumulator (lines 182-191). *)
Definition run_epochs {Tokenizer : Type}
  (pearsonr : ndarray -> ndarray -> exn + (float * float))
  (tokenizer_decode : Tokenizer -> list Z -> string)
  (loss_fn : Loss -> ndarray -> ndarray -> exn + float)
  (argmax_accuracy : ndarray -> ndarray -> exn + float)
  (tensor_mean : list float -> float)
  (self : T5ASSIN Tokenizer)
  (epochs : list (Network * list Batch.t)) : M world (list EpochEnd) :=
  mapM (fun ep => validation_epoch pearsonr tokenizer_decode (fst ep) loss_fn
                    argmax_accuracy tensor_mean self (snd ep))
       epochs.

(** ** [NONLinearInput] and the ["mlp"] branch of [forward]
       (lines 67-75, 161-162)

    The tensors are [torch.float32]: IEEE 754 binary32 numbers, every
    product and sum rounded to nearest.  [torch.sigmoid] is a kernel of
    torch whose rounding the source does not fix; it is a parameter of the
    forward pass. *)

Module Mlp.

Definition prec32 : Z := 24.
Definition emax32 : Z := 128.

Definition add32 : float -> float -> float := SFadd prec32 emax32.
Definition mul32 : float -> float -> float := SFmul prec32 emax32.

(** [x.float()] on one integer of [input_ids], and the scalars [1] and [4]
    of line 75 as [torch.float32]. *)
Definition to_float32 (n : Z) : float := binary_normalize prec32 emax32 n 0 false.

(** [nn.ReLU]: [x] where [x > 0], NaN where [x] is NaN, [0.0] elsewhere. *)
Definition relu (x : float) : float :=
  if flt zero x then x else if is_nan x then nan else zero.

Fixpoint mapi_from {A B} (i : nat) (g : nat -> A -> B) (l : list A) : list B :=
  match l with
  | [] => []
  | a :: rest => g i a :: mapi_from (S i) g rest
  end.

(** [nn.Dropout(0.5)]: the identity in evaluation; in training the input is
    multiplied by the noise, which is [1 / (1 - 0.5) = 2.0] on the elements
    the draw [keep] retains and [0.0] on the others. *)
Definition dropout (training : bool) (keep : nat -> bool) (v : list float)
  : list float :=
  if training then
    mapi_from 0 (fun i x => if keep i then mul32 x (to_float32 2) else mul32 x zero) v
  else v.

(** The weights of an [nn.Linear]: one row of [weight] and one entry of
    [bias] per output feature. *)
Record Layer : Type := mk_Layer { weight : list (list float); bias : list float }.

(** The products of a row are added up from left to right; torch leaves the
    order to its matrix kernel. *)
Definition dot (u v : list float) : float :=
  fold_left (fun acc p => add32 acc (mul32 (fst p) (snd p))) (combine u v) zero.

Definition fits (l : Layer) (x : list float) : bool :=
  forallb (fun row => Nat.eqb (List.length row) (List.length x)) (weight l)
  && Nat.eqb (List.length (weight l)) (List.length (bias l)).

(** [nn.Linear.forward] on one example *)
Definition Linear_forward (l : Layer) (x : list float) : exn + list float :=
  if fits l x then
    inr (map (fun wb => add32 (dot (fst wb) x) (snd wb)) (combine (weight l) (bias l)))
  else inl (RuntimeError "size mismatch").

Section Kernels.

(** [torch.sigmoid] on one [torch.float32] number *)
Variable sigmoid : float -> float.

(** [1 + t.sigmoid() * 4] on one element *)
Definition squash (v : float) : float :=
  add32 (to_float32 1) (mul32 (sigmoid v) (to_float32 4)).

(** [NONLinearInput.forward] on one example:
    [1 + self.net(x.float()).sigmoid() * 4]. *)
Definition NONLinearInput_forward (net : Layer) (training : bool)
  (keep : nat -> bool) (x : list Z) : exn + list float :=
  match Linear_forward net (map to_float32 x) with
  | inr h => inr (map squash (dropout training keep (map relu h)))
  | inl e => inl e
  end.


End Kernels.

End Mlp.

(** ** The training hooks (lines 182-191, 235-242) *)

(** The dictionary of a training step: its entry is what [forward] returned,
    or the scalar of the loss. *)
Definition step_dict : Type := list (string * Output).

Fixpoint step_dict_get (d : step_dict) (key : string) : exn + Output :=
  match d with
  | [] => inl (KeyError key)
  | (k, v) :: rest => if String.eqb k key then inr v else step_dict_get rest key
  end.

(** A tensor without axes, holding one number. *)
Definition scalar_tensor (v : float) : ndarray := mk_ndarray [] [v].

Section Training.

Variable Tokenizer : Type.
Variable net : Network.
Variable loss_fn : Loss -> ndarray -> ndarray -> exn + float.
(** [torch.stack(ts).mean()] on a list that is not empty. *)
Variable stacked_mean : list Output -> exn + float.
Variable self : T5ASSIN Tokenizer.

(** [T5ASSIN.training_step]; the harness runs it with [self.training] on. *)
Definition training_step (batch : Batch.t) (batch_idx : nat) : M world step_dict :=
  let original_number := Batch.original_number batch in
  if str_in (architecture (hparams self)) ["gen"; "categoric_gen"] then
    loss <- lift (forward net self true batch) ;;
    ret [("loss", loss)]
  else
    out <- lift (forward net self true batch) ;;
    t <- lift (as_tensor out) ;;
    let y_hat := squeeze_last t in
    loss <- lift (loss_fn (loss self) y_hat original_number) ;;
    ret [("loss", Tensor (scalar_tensor loss))].

(** [T5ASSIN.training_epoch_end] *)
Definition training_epoch_end (outputs : list step_dict) : M world EpochEnd :=
  let name := "train_" in
  vals <- mapM (fun x => lift (step_dict_get x "loss")) outputs ;;
  loss <- match vals with
          | [] => raise (RuntimeError "stack expects a non-empty TensorList")
          | _ :: _ => lift (stacked_mean vals)
          end ;;
  let logs := [(name ++ "loss", loss)] in
  ret (mk_EpochEnd [(name ++ "loss", loss)] logs logs).

(** The training loop of the harness over the batches of one epoch. *)
Fixpoint training_steps (batches : list Batch.t) (batch_idx : nat)
  : M world (list step_dict) :=
  match batches with
  | [] => ret []
  | b :: rest =>
      o <- training_step b batch_idx ;;
      os <- training_steps rest (S batch_idx) ;;
      ret (o :: os)
  end.

Definition training_epoch (batches : list Batch.t) : M world EpochEnd :=
  outputs <- training_steps batches 0 ;;
  training_epoch_end outputs.

End Training.

(** ** The data loaders (lines 273-286) *)

(** [sub in s] on strings: [sub] occurs somewhere in [s]. *)
Fixpoint str_contains (sub s : string) : bool :=
  String.prefix sub s
  || match s with
     | EmptyString => false
     | String _ rest => str_contains sub rest
     end.

(** The fields of [hparams] that the constructor and the hooks do not
    read. *)
Record TrainerParams : Type := mk_TrainerParams {
  name : string;
  bs : Z;
  version : string;
  overfit_pct : float;
  debug : bool;
  patience : Z
}.

(** [ASSIN] and its [get_dataloader] live in [assin_dataset.py], which is not
    among the sources: a data loader is represented by the arguments it is
    built with. *)
Record DataloaderCall : Type := mk_DataloaderCall {
  ds_mode : string;
  ds_version : string;
  ds_seq_len : Z;
  ds_vocab_name : string;
  ds_categoric : bool;
  dl_batch_size : Z;
  dl_shuffle : bool
}.

(** [T5ASSIN.train_dataloader] *)
Definition train_dataloader {Tokenizer : Type} (p : TrainerParams)
  (self : T5ASSIN Tokenizer) : M world DataloaderCall :=
  shuffle <- (if fgt (overfit_pct p) zero then
                logging_info "Disabling train shuffle due to overfit_pct." ;;
                ret false
              else ret true) ;;
  ret (mk_DataloaderCall "train" (version p) (seq_len (hparams self))
         (vocab_name (hparams self))
         (str_contains "categoric" (architecture (hparams self)))
         (bs p) shuffle).

(** [T5ASSIN.val_dataloader] *)
Definition val_dataloader {Tokenizer : Type} (p : TrainerParams)
  (self : T5ASSIN Tokenizer) : M world DataloaderCall :=
  ret (mk_DataloaderCall "validation" (version p) (seq_len (hparams self))
         (vocab_name (hparams self))
         (str_contains "categoric" (architecture (hparams self)))
         (bs p) false).

(** ** The callbacks of the script (lines 335-357) *)

(** The arguments [ModelCheckpoint] and [EarlyStopping] are built with. *)
Record Callbacks : Type := mk_Callbacks {
  cb_prefix : string;
  filepath : string;
  monitor : string;
  mode : string;
  cb_patience : Z
}.

Section Script.

(** [os.path.isdir] *)
Variable isdir : string -> bool.

(** Lines 335-357; [None] stands for the two callbacks set to [False]. *)
Definition select_callbacks (p : TrainerParams) (arch : string)
  (log_path model_path model_folder : string) : M world (option Callbacks) :=
  if debug p && negb (feq (overfit_pct p) zero) then
    logging_warning "Checkpoint not being saved due to debug mode or overfit." ;;
    ret None
  else
    sel <- (if str_contains "categoric" arch then
              logging_info "Selecting best model by max acc" ;;
              ret ("val_acc", "max", os_path_join model_folder "-{epoch}-{val_acc:.4f}")
            else
              logging_info "Selecting best model by min loss" ;;
              ret ("val_loss", "min", os_path_join model_folder "-{epoch}-{val_loss:.4f}")) ;;
    let '(monitor, mode, ckpt_path) := sel in
    assert_ (isdir log_path && isdir model_path && isdir model_folder)
      (Some "Check logs, models or checkpoints") ;;
    ret (Some (mk_Callbacks (name p) ckpt_path monitor mode (patience p))).

End Script.

(** * Notions used in the statements

    Invariants of the accumulator, the data of the concrete runs and one
    instance of every collaborator. *)

(** ** The accumulator *)

(** The accumulator holds two one-dimensional arrays. *)
Definition flat (c : PearsonCalculator) : Prop :=
  ndim (y_hat c) = 1 /\ ndim (y c) = 1.

(** What a call that passes the two assertions leaves behind. *)
Definition appended (c : PearsonCalculator) (y_hat' y' : ndarray) : PearsonCalculator :=
  mk_PearsonCalculator
    (mk_ndarray [len (y_hat c) + len y_hat'] (data (y_hat c) ++ data y_hat'))
    (mk_ndarray [len (y c) + len y'] (data (y c) ++ data y')).

Definition warning_record : level * string :=
  (WARNING, "Pearson does not have enough samples, returning nan").

(** ** An instance of [pearsonr]

    The coefficient by its definition, in binary64 arithmetic, to run the
    model on data; the p-value is not computed and left as NaN. *)
Definition fadd := SFadd prec emax.
Definition fsub := SFsub prec emax.
Definition fmul := SFmul prec emax.
Definition fdiv := SFdiv prec emax.
Definition fsqrt := SFsqrt prec emax.
Definition of_nat (n : nat) : float := binary_normalize prec emax (Z.of_nat n) 0 false.
Definition fsum (l : list float) : float := fold_left fadd l zero.

Definition minus_one : float := S754_finite true 4503599627370496 (-52).
Definition plus_one : float := S754_finite false 4503599627370496 (-52).

Definition pearsonr_textbook (x y : ndarray) : exn + (float * float) :=
  let n := len x in
  if negb (Nat.eqb n (len y)) then inl (ValueError "x and y must have the same length.")
  else if Nat.ltb n 2 then inl (ValueError "x and y must have length at least 2.")
  else
    let center := fun d => map (fun v => fsub v (fdiv (fsum d) (of_nat n))) d in
    let norm := fun d => fsqrt (fsum (map (fun v => fmul v v) d)) in
    let xm := center (data x) in
    let ym := center (data y) in
    let r := fsum (map (fun p => fmul (fdiv (fst p) (norm xm)) (fdiv (snd p) (norm ym)))
                     (combine xm ym)) in
    let r := if SFltb plus_one r then plus_one else r in
    let r := if SFltb r minus_one then minus_one else r in
    inr (r, nan).

(** ** Data for the runs *)

(** The float a decimal literal denotes. *)
Definition lit (s : string) : float :=
  match py_float s with inr x => x | inl _ => nan end.

Definition preds3 : ndarray := array1 [lit "2.0"; lit "3.0"; lit "4.0"].

Definition targets3 : ndarray := array1 [lit "2.1"; lit "2.9"; lit "4.2"].

Definition targets4 : ndarray := array1 [lit "2.1"; lit "2.9"; lit "4.2"; lit "1.0"].

(** A scalar, [np.array(2.0)], and a 1x2 matrix. *)
Definition scalar0 : ndarray := mk_ndarray [] [lit "2.0"].

Definition matrix12 : ndarray := mk_ndarray [1; 2] [lit "2.0"; lit "3.0"].

(** ** Predicates on runs of the accumulator *)

Definition same_length (o : Op) : Prop :=
  match o with
  | Observe p t => len p = len t /\ List.length (data p) = List.length (data t)
  | ComputeAndReset => True
  end.

Definition balanced (c : PearsonCalculator) : Prop :=
  flat c /\ len (y_hat c) = len (y c)
  /\ List.length (data (y_hat c)) = List.length (data (y c)).

(** The accumulator after the three pairs of the end-to-end scenario. *)
Definition three_pairs : world :=
  mk_world (appended PearsonCalculator_init preds3 targets3) [].

Definition one_dimensional_pair (o : ndarray * ndarray) : Prop :=
  ndim (fst o) = 1 /\ ndim (snd o) = 1 /\ len (fst o) = len (snd o).

(** The accumulator [c] after the pairs [obs]. *)
Definition appended_all (c : PearsonCalculator) (obs : list (ndarray * ndarray))
  : PearsonCalculator :=
  mk_PearsonCalculator
    (mk_ndarray [len (y_hat c) + list_sum (map len (map fst obs))]
                (data (y_hat c) ++ List.concat (map data (map fst obs))))
    (mk_ndarray [len (y c) + list_sum (map len (map snd obs))]
                (data (y c) ++ List.concat (map data (map snd obs)))).

(** ** Decoded values *)

(** The binary64 numbers nearest to 3.2, 7.9 and 0.1. *)
Definition f3_2 : float := S754_finite false 7205759403792794 (-51).

Definition f7_9 : float := S754_finite false 8894609264056730 (-50).

Definition f0_1 : float := S754_finite false 7205759403792794 (-56).

(** ** The constructor *)

Definition done_record : level * string := (INFO, "Initialization done.").

Definition known_modes : list string := ["mlp"; "categoric"; "gen"; "categoric_gen"].

Definition nout_message : string :=
  "Categoric mode with 1 nout doesn't work with CrossEntropyLoss".

(** ** An installation to run the constructor on

    The hub knows [t5-small]; one PTT5 checkpoint and its configuration are
    on disk. *)

Definition hub (cls : T5Class) (src : string + PretrainedConfig * unit)
  : exn + PretrainedConfig :=
  match src with
  | inl name =>
      if String.eqb name "t5-small" then inr (mk_PretrainedConfig 512)
      else inl (OSError "Can't load config")
  | inr (config, _) => inr config
  end.

Definition disk (pattern : string) : list string :=
  if String.eqb pattern "ckpts/ptt5-base-portuguese-vocab*"
  then ["ckpts/ptt5-base-portuguese-vocab.pth"]
  else if String.eqb pattern "T5_configs_json/ptt5*base*"
  then ["T5_configs_json/ptt5-base-portuguese-vocab-config.json"]
  else [].

Definition read_config (path : string) : exn + PretrainedConfig :=
  if String.eqb path "T5_configs_json/ptt5-base-portuguese-vocab-config.json"
  then inr (mk_PretrainedConfig 768)
  else inl (OSError "No such file").

Definition installed_init : Hparams -> M world (T5ASSIN unit) :=
  T5ASSIN_init (inr tt) (fun _ => inr tt) disk read_config
    (fun _ => inr tt) hub.

Definition t5_small (arch : string) (nout : Z) : Hparams :=
  mk_Hparams "t5-small" "t5-small" arch 128 nout None.

Definition ptt5_base (arch : string) (nout : Z) : Hparams :=
  mk_Hparams "custom" "ptt5-base-portuguese-vocab" arch 128 nout (Some "ckpts").

Definition t5_log : list (level * string) :=
  [(INFO, "Initializing from T5 checkpoint...")].

Definition ptt5_log : list (level * string) :=
  [(INFO, "Initializing from PTT5 checkpoint...");
   (INFO, "Loading initial ckpt from ckpts/ptt5-base-portuguese-vocab.pth");
   (INFO, "Loading config from T5_configs_json/ptt5-base-portuguese-vocab-config.json")].

(** ** Weights for the [mlp] branch *)

Definition half32 : float := S754_finite false 8388608 (-24).
Definition one32 : float := Mlp.to_float32 1.
Definition three32 : float := Mlp.to_float32 3.

(** The weights of the run: three features, two hidden units (the first
    multiplies the first feature by 8, the second negates the second
    feature) and a head that adds the two up. *)
Definition hidden_3_2 : Mlp.Layer :=
  Mlp.mk_Layer
    [[Mlp.to_float32 8; zero; zero]; [zero; Mlp.to_float32 (-1); zero]]
    [zero; zero].


Definition features : list Z := [8; 1; 0]%Z.

Definition first_dropped (i : nat) : bool := negb (Nat.eqb i 0).

(** A kernel that is exact at zero and saturated elsewhere; the statements
    on the hidden layer are run with it. *)
Definition coarse_sigmoid (x : float) : float :=
  match x with
  | S754_zero _ => half32
  | S754_nan => nan
  | _ => if flt zero x then one32 else zero
  end.

(** Neither an infinity nor NaN. *)
Definition finite (x : float) : bool :=
  match x with
  | S754_zero _ | S754_finite _ _ _ => true
  | _ => false
  end.

(** ** The hooks in the mode [gen] *)

(** A computation that leaves the state as it found it, on both exits. *)
Definition keeps_state {A} (c : M world A) : Prop :=
  forall w, final_state (c w) = w.

(** The report of an epoch of the mode "gen". *)
Definition gen_report (loss : float) : EpochEnd :=
  let logs := [("val_loss", loss); ("val_pearson", nan)] in
  mk_EpochEnd [("val_loss", loss)] logs logs.

Definition reports_nan (o : EpochEnd) : Prop :=
  dict_get (log o) "val_pearson" = inr nan.

(** What one batch contributes when the generation, the decoding and the
    loss go through. *)
Definition gen_batch_loss {Tokenizer : Type}
  (tokenizer_decode : Tokenizer -> list Z -> string)
  (loss_fn : Loss -> ndarray -> ndarray -> exn + float)
  (self : T5ASSIN Tokenizer)
  (net : Network) (batch : Batch.t) (l : float) : Prop :=
  exists rows y_hat',
    generate net (Batch.input_ids batch) (Batch.attention_mask batch) = inr rows
    /\ decode_generated (map (tokenizer_decode (tokenizer self)) rows)
         (Batch.original_number batch) = inr y_hat'
    /\ loss_fn (loss self) y_hat' (Batch.original_number batch) = inr l.

(** ** Collaborators for a run of two epochs *)

Definition vocabulary (tok : unit) (ids : list Z) : string :=
  match ids with
  | [1%Z] => "3.5"
  | [2%Z] => "nota 2"
  | [3%Z] => "valor 7 de 5"
  | _ => ""
  end.

(** A network that generates the tokens it is given. *)
Definition echo_net : Network :=
  mk_Network (fun _ => inl (RuntimeError "not in this mode"))
    (fun _ _ => inl (RuntimeError "not in this mode"))
    (fun _ _ _ => inl (RuntimeError "not in this mode"))
    (fun ids _ => inr ids)
    (fun t => t).

Definition mean_of (l : list float) : float :=
  fdiv (fsum l) (of_nat (List.length l)).

Definition mse_loss (kind : Loss) (a b : ndarray) : exn + float :=
  inr (mean_of (map (fun p => fmul (fsub (fst p) (snd p)) (fsub (fst p) (snd p)))
                  (combine (data a) (data b)))).

Definition no_accuracy (a b : ndarray) : exn + float :=
  inl (RuntimeError "not in this mode").

Definition batch_a : Batch.t :=
  Batch.mk [[1%Z]; [3%Z]] [[1%Z]; [1%Z]] [[1%Z]; [1%Z]]
    (array1 [lit "3.5"; lit "4.0"]).

Definition batch_b : Batch.t :=
  Batch.mk [[2%Z]] [[1%Z]] [[2%Z]] (array1 [lit "2.0"]).

Definition gen_model : T5ASSIN unit :=
  mk_T5ASSIN (t5_small "gen" 1) tt "small"
    (T5 T5ForConditionalGeneration (mk_PretrainedConfig 512)) None MSELoss.

Definition two_epochs : list (Network * list Batch.t) :=
  [(echo_net, [batch_a]); (echo_net, [batch_a; batch_b])].

(** ** Notions for the further properties *)

(** A one-dimensional array holds as many elements as its shape says. *)
Definition well_formed1 (a : ndarray) : Prop := List.length (data a) = len a.

Definition observes_well_formed (o : Op) : Prop :=
  match o with
  | Observe p t => (ndim p = 1 -> well_formed1 p) /\ (ndim t = 1 -> well_formed1 t)
  | ComputeAndReset => True
  end.

Definition sound (c : PearsonCalculator) : Prop :=
  flat c /\ well_formed1 (y_hat c) /\ well_formed1 (y c).

Definition count_resets (ops : list Op) : nat :=
  List.length (filter (fun o => match o with ComputeAndReset => true | _ => false end) ops).

(** The modes that reach the last branch of [validation_step] and of
    [validation_epoch_end]. *)
Definition regression_mode (arch : string) : bool :=
  negb (str_in arch ["gen"; "categoric_gen"; "categoric"]).

Definition no_number (phrase : string) : Prop :=
  first_parseable (split phrase) = None.

(** A batch with the prediction and the loss the collaborators give for
    it. *)
Record Scored : Type := mk_Scored {
  scored_batch : Batch.t;
  scored_y_hat : ndarray;
  scored_loss : float
}.

Definition scored_target (s : Scored) : ndarray :=
  Batch.original_number (scored_batch s).



Definition empty_stack : exn := RuntimeError "stack expects a non-empty TensorList".

Definition size_message : string := "Couldn't detect model size from model_name.".

Definition sizes : list string := ["small"; "base"; "large"].

Definition path_message : string :=
  "expected str, bytes or os.PathLike object, not NoneType".

(** The loss the constructor picks for a mode. *)
Definition loss_of_mode (arch : string) : Loss :=
  if str_in arch ["categoric"; "categoric_gen"] then CrossEntropyLoss else MSELoss.

Definition is_cross_entropy (l : Loss) : bool :=
  match l with CrossEntropyLoss => true | MSELoss => false end.

(** ** Collaborators for a run in a regression mode *)

Definition of_Z (z : Z) : float := binary_normalize prec emax z 0 false.

(** A network whose pooled head returns the first token of every row as a
    column, and whose squashing clamps into [1, 5]. *)
Definition column_net : Network :=
  mk_Network (fun _ => inl (RuntimeError "not in this mode"))
    (fun ids _ => inr (mk_ndarray [List.length ids; 1]
                         (map (fun row => of_Z (hd 0%Z row)) ids)))
    (fun _ _ _ => inr (scalar_tensor (lit "0.5")))
    (fun ids _ => inr ids)
    (fun t => mk_ndarray (shape t) (map clamp (data t))).

Definition similarity_model : T5ASSIN unit :=
  mk_T5ASSIN (t5_small "similarity" 1) tt "small"
    (T5 T5Model (mk_PretrainedConfig 512)) (Some (mk_Linear 512 1)) MSELoss.

Definition categoric_model : T5ASSIN unit :=
  mk_T5ASSIN (t5_small "categoric" 3) tt "small"
    (T5 T5Model (mk_PretrainedConfig 512)) (Some (mk_Linear 512 3)) CrossEntropyLoss.

Definition batch_23 : Batch.t :=
  Batch.mk [[2%Z]; [3%Z]] [[1%Z]; [1%Z]] [[2%Z]; [3%Z]]
    (array1 [lit "2.1"; lit "2.9"]).

Definition batch_4 : Batch.t :=
  Batch.mk [[4%Z]] [[1%Z]] [[4%Z]] (array1 [lit "4.2"]).

Definition default_params : TrainerParams :=
  mk_TrainerParams "run" 32 "v2" zero false 5.

Definition all_dirs (path : string) : bool := true.

(** ** More data for the runs *)

Definition mlp_model : T5ASSIN unit :=
  mk_T5ASSIN (t5_small "mlp" 1) tt "small"
    (NONLinearInput (mk_Linear 128 512)) (Some (mk_Linear 512 1)) MSELoss.

Definition ptt5_no_path : Hparams :=
  mk_Hparams "custom" "ptt5-base-portuguese-vocab" "gen" 128 1 None.

Definition unsized : Hparams :=
  mk_Hparams "t5-small" "t5-smaller" "gen" 128 1 None.

Definition installed_get_ptt5 : Hparams -> string -> M world (PretrainedConfig * unit) :=
  get_ptt5 disk read_config (fun _ => inr tt).

Definition full_accuracy (a b : ndarray) : exn + float := inr one.

Definition mse_value (a b : ndarray) : float :=
  match mse_loss MSELoss a b with inr l => l | inl _ => nan end.

Definition scored_a : Scored :=
  mk_Scored batch_23 (array1 [lit "2.0"; lit "3.0"])
    (mse_value (array1 [lit "2.0"; lit "3.0"]) (array1 [lit "2.1"; lit "2.9"])).

Definition scored_b : Scored :=
  mk_Scored batch_4 (array1 [lit "4.0"])
    (mse_value (array1 [lit "4.0"]) (array1 [lit "4.2"])).

Definition overfit_params : TrainerParams :=
  mk_TrainerParams "run" 32 "v2" (lit "0.1") true 5.

(** A word as [str.split] returns them: not empty, without a space
    character. *)
Fixpoint no_space (w : string) : bool :=
  match w with
  | EmptyString => true
  | String c rest => negb (isspace c) && no_space rest
  end.

Definition token (w : string) : Prop := w <> "" /\ no_space w = true.

(** The value [decode] gives for the words of a text. *)
Definition decoded_from (words : list string) : float :=
  match first_parseable words with Some x => clamp x | None => zero end.

(** A mode that is not among the four of the dispatch, and whose name holds
    the word the script looks for. *)
Definition categorical_model : T5ASSIN unit :=
  mk_T5ASSIN (t5_small "categorical" 3) tt "small"
    (T5 T5Model (mk_PretrainedConfig 512)) (Some (mk_Linear 512 1)) MSELoss.

(** The value the training forward pass of [column_net] returns in the
    generative modes. *)
Definition lm_value : Output := Tensor (scalar_tensor (lit "0.5")).

Definition info_record (msg : string) : level * string := (INFO, msg).

Definition off_record : level * string :=
  (WARNING, "Checkpoint not being saved due to debug mode or overfit.").

Definition dirs_message : string := "Check logs, models or checkpoints".

(** The file name pattern of the checkpoints for a monitored metric. *)
Definition ckpt_pattern (metric : string) : string :=
  "-{epoch}-{" ++ metric ++ ":.4f}".

Definition debug_only : TrainerParams :=
  mk_TrainerParams "run" 32 "v2" zero true 5.

(** The characters of a text that are not spaces, in order. *)
Fixpoint strip_spaces (s : string) : string :=
  match s with
  | EmptyString => EmptyString
  | String c rest =>
      if isspace c then strip_spaces rest else String c (strip_spaces rest)
  end.

(** One [torch.stack(ts).mean()]: on tensors without axes, the mean of their
    numbers. *)
Fixpoint scalars_of (l : list Output) : exn + list float :=
  match l with
  | [] => inr []
  | Tensor (mk_ndarray [] [v]) :: rest =>
      match scalars_of rest with
      | inr vs => inr (v :: vs)
      | inl e => inl e
      end
  | _ => inl (RuntimeError "stack expects each tensor to be equal size")
  end.

Definition stacked_mean_of (l : list Output) : exn + float :=
  match scalars_of l with
  | inr vs => inr (mean_of vs)
  | inl e => inl e
  end.

Definition failing_loss (kind : Loss) (a b : ndarray) : exn + float :=
  inl (RuntimeError "not in this mode").


(** * Properties *)

(** ** The accumulator *)

Lemma py_len_flat (a : ndarray) : ndim a = 1 -> py_len a = inr (len a).
Proof.
  unfold ndim, py_len, len. destruct (shape a); [discriminate | reflexivity].
Qed.

Lemma ndim_one (a : ndarray) : ndim a = 1 <-> exists n, shape a = [n].
Proof.
  unfold ndim. split.
  - destruct (shape a) as [|n [|m r]]; simpl; try discriminate.
    intros _. now exists n.
  - intros [n ->]. reflexivity.
Qed.

Lemma call_rejects (y_hat' y' : ndarray) (w : world) :
  ndim y_hat' <> 1 \/ ndim y' <> 1 ->
  PearsonCalculator_call y_hat' y' w = Raised (AssertionError None) w.
Proof.
  unfold PearsonCalculator_call, bind, assert_, ndim.
  intros H.
  destruct (Nat.eqb_spec (List.length (shape y_hat')) 1) as [E1|E1]; [|reflexivity].
  destruct (Nat.eqb_spec (List.length (shape y')) 1) as [E2|E2]; [|reflexivity].
  destruct H as [H|H]; contradiction.
Qed.

Lemma np_concatenate_flat (a b : ndarray) (n m : nat) :
  shape a = [n] -> shape b = [m] ->
  np_concatenate a b = inr (mk_ndarray [n + m] (data a ++ data b)).
Proof. intros Ha Hb. unfold np_concatenate. rewrite Ha, Hb. reflexivity. Qed.

Lemma call_appends (y_hat' y' : ndarray) (w : world) :
  flat (pearson_calculator w) ->
  ndim y_hat' = 1 -> ndim y' = 1 ->
  PearsonCalculator_call y_hat' y' w
  = Returned tt (mk_world (appended (pearson_calculator w) y_hat' y') (logged w)).
Proof.
  intros [F1 F2] H1 H2.
  apply ndim_one in F1, F2, H1, H2.
  destruct F1 as [n Fn], F2 as [m Fm], H1 as [a Ha], H2 as [b Hb].
  destruct w as [[ph pt] lg]; simpl in *.
  unfold PearsonCalculator_call, bind, assert_, read_calc, modify_calc, appended, len.
  simpl. rewrite Ha, Hb. simpl.
  rewrite (np_concatenate_flat ph y_hat' Fn Ha). simpl.
  rewrite (np_concatenate_flat pt y' Fm Hb). simpl.
  rewrite Fn, Fm. reflexivity.
Qed.

Lemma flat_init : flat PearsonCalculator_init.
Proof. split; reflexivity. Qed.

Lemma flat_appended c p t : flat (appended c p t).
Proof. split; reflexivity. Qed.

(** A call changes the accumulator only by appending, and never the log. *)
Lemma call_final_state (y_hat' y' : ndarray) (w : world) :
  flat (pearson_calculator w) ->
  final_state (PearsonCalculator_call y_hat' y' w) = w
  \/ final_state (PearsonCalculator_call y_hat' y' w)
     = mk_world (appended (pearson_calculator w) y_hat' y') (logged w)
       /\ ndim y_hat' = 1 /\ ndim y' = 1.
Proof.
  intros F.
  destruct (Nat.eq_dec (ndim y_hat') 1) as [H1|H1];
    [destruct (Nat.eq_dec (ndim y') 1) as [H2|H2]|].
  - right. rewrite call_appends by assumption. auto.
  - left. rewrite call_rejects by auto. reflexivity.
  - left. rewrite call_rejects by auto. reflexivity.
Qed.

Section PearsonFacts.

Variable pearsonr : ndarray -> ndarray -> exn + (float * float).

Lemma calculate_few (w : world) :
  ndim (y (pearson_calculator w)) = 1 ->
  len (y (pearson_calculator w)) < 2 ->
  calculate_pearson pearsonr w
  = Returned nan (fresh (logged w ++ [warning_record])).
Proof.
  intros F H. unfold calculate_pearson, bind, read_calc; simpl.
  rewrite (py_len_flat _ F). simpl.
  destruct (Nat.ltb_spec (len (y (pearson_calculator w))) 2) as [L|L]; [|lia].
  reflexivity.
Qed.

Lemma calculate_enough (w : world) :
  ndim (y (pearson_calculator w)) = 1 ->
  2 <= len (y (pearson_calculator w)) ->
  calculate_pearson pearsonr w
  = match pearsonr (y (pearson_calculator w)) (y_hat (pearson_calculator w)) with
    | inr p => Returned (fst p) (fresh (logged w))
    | inl e => Raised e w
    end.
Proof.
  intros F H. unfold calculate_pearson, bind, read_calc; simpl.
  rewrite (py_len_flat _ F). simpl.
  destruct (Nat.ltb_spec (len (y (pearson_calculator w))) 2) as [L|L]; [lia|].
  destruct (pearsonr _ _) as [e|p]; simpl; [|reflexivity].
  destruct w; reflexivity.
Qed.

(** On an accumulator whose targets have no axis [len] raises, and
    nothing is cleared. *)
Lemma calculate_unsized (w : world) :
  shape (y (pearson_calculator w)) = [] ->
  calculate_pearson pearsonr w = Raised (TypeError "len() of unsized object") w.
Proof.
  intros H. unfold calculate_pearson, bind, read_calc, py_len; simpl.
  rewrite H. destruct w; reflexivity.
Qed.

(** The exits of [calculate_pearson]: it returns with an empty accumulator,
    or raises with the state untouched. *)
Lemma calculate_exits (w : world) :
  (exists r lg, calculate_pearson pearsonr w = Returned r (fresh lg))
  \/ (exists e, calculate_pearson pearsonr w = Raised e w).
Proof.
  unfold calculate_pearson, bind, read_calc, py_len; simpl.
  destruct (shape (y (pearson_calculator w))) as [|n r]; simpl.
  { right. destruct w. eauto. }
  destruct (Nat.ltb n 2); simpl.
  { left. eauto. }
  destruct (pearsonr _ _) as [e|p]; simpl.
  - right. destruct w. eauto.
  - left. eauto.
Qed.

(** Whatever the exit, the accumulator is either as it was or empty. *)
Lemma calculate_final_state (w : world) :
  final_state (calculate_pearson pearsonr w) = w
  \/ pearson_calculator (final_state (calculate_pearson pearsonr w))
     = PearsonCalculator_init.
Proof.
  destruct (calculate_exits w) as [(r & lg & ->) | (e & ->)];
    [right | left]; reflexivity.
Qed.

Lemma calculate_returned (w w' : world) (r : float) :
  calculate_pearson pearsonr w = Returned r w' ->
  pearson_calculator w' = PearsonCalculator_init.
Proof.
  destruct (calculate_exits w) as [(r0 & lg & ->) | (e & ->)];
    [|discriminate].
  intros [= _ <-]. reflexivity.
Qed.

End PearsonFacts.

(** *** C1 *)

(** C1, as stated, fails: a call with 3 predictions and 4 targets, both
    one-dimensional, does not raise; it appends both, leaving running
    sequences of lengths 3 and 4. *)
Lemma observe_3_predictions_4_targets_accepted :
  len preds3 <> len targets4
  /\ PearsonCalculator_call preds3 targets4 (fresh [])
     = Returned tt (mk_world (mk_PearsonCalculator
                                (mk_ndarray [3] (data preds3))
                                (mk_ndarray [4] (data targets4))) []).
Proof. split; [discriminate | reflexivity]. Qed.

(** C1 (amended): the call checks the number of dimensions only.  It raises
    the assertion error exactly when one of the two arrays is not
    one-dimensional, and then the state is the one before the call; with two
    one-dimensional arrays it returns and has appended both, whatever their
    lengths. *)
Theorem observe_checks_dimensions_only (y_hat' y' : ndarray) (w : world) :
  flat (pearson_calculator w) ->
  (ndim y_hat' <> 1 \/ ndim y' <> 1 ->
   PearsonCalculator_call y_hat' y' w = Raised (AssertionError None) w)
  /\ (ndim y_hat' = 1 /\ ndim y' = 1 ->
      PearsonCalculator_call y_hat' y' w
      = Returned tt (mk_world (appended (pearson_calculator w) y_hat' y') (logged w))).
Proof.
  intros F. split.
  - apply call_rejects.
  - intros [H1 H2]. now apply call_appends.
Qed.

Lemma observe_checks_dimensions_only_witness :
  PearsonCalculator_call preds3 matrix12 (fresh []) = Raised (AssertionError None) (fresh [])
  /\ PearsonCalculator_call scalar0 targets3 (fresh []) = Raised (AssertionError None) (fresh [])
  /\ PearsonCalculator_call preds3 targets4 (fresh [])
     = Returned tt (mk_world (appended PearsonCalculator_init preds3 targets4) []).
Proof.
  split; [|split].
  - apply (proj1 (observe_checks_dimensions_only preds3 matrix12 (fresh []) flat_init)).
    right. discriminate.
  - apply (proj1 (observe_checks_dimensions_only scalar0 targets3 (fresh []) flat_init)).
    left. discriminate.
  - apply (proj2 (observe_checks_dimensions_only preds3 targets4 (fresh []) flat_init)).
    split; reflexivity.
Defined.

(** *** C7 *)

(** C7, as stated, fails: after the single call with 3 predictions and 4
    targets the two running sequences differ in length. *)
Lemma lengths_differ_after_3_vs_4 :
  let c := pearson_calculator
             (run_ops pearsonr_textbook [Observe preds3 targets4] (fresh [])) in
  len (y_hat c) = 3 /\ len (y c) = 4
  /\ List.length (data (y_hat c)) = 3 /\ List.length (data (y c)) = 4.
Proof. repeat split. Qed.

Lemma balanced_init : balanced PearsonCalculator_init.
Proof. repeat split. Qed.

Lemma balanced_step pearsonr (o : Op) (w : world) :
  same_length o -> balanced (pearson_calculator w) ->
  balanced (pearson_calculator (final_state (run_op pearsonr o w))).
Proof.
  intros Ho (F & L & D). destruct o as [p t|]; simpl in *.
  - destruct (call_final_state p t w F) as [-> | (-> & _ & _)].
    + exact (conj F (conj L D)).
    + destruct Ho as [Hl Hd]. split; [apply flat_appended|]. simpl.
      rewrite !length_app. split; [|lia].
      change (len (y_hat (pearson_calculator w)) + len p
              = len (y (pearson_calculator w)) + len t). lia.
  - unfold bind.
    pose proof (calculate_final_state pearsonr w) as H.
    destruct (calculate_pearson pearsonr w) as [r w'|e w']; simpl in *.
    + destruct H as [-> | ->]; [exact (conj F (conj L D)) | apply balanced_init].
    + destruct H as [-> | ->]; [exact (conj F (conj L D)) | apply balanced_init].
Qed.

Lemma balanced_run pearsonr (ops : list Op) :
  Forall same_length ops ->
  forall w, balanced (pearson_calculator w) ->
  balanced (pearson_calculator (run_ops pearsonr ops w)).
Proof.
  induction 1 as [|o ops Ho _ IH]; intros w B; simpl.
  - exact B.
  - apply IH. now apply balanced_step.
Qed.

(** C7 (amended): after any run of calls and resets from the fresh
    accumulator in which every call is given two arrays of the same length,
    the two running sequences have the same length (calls that raise
    included: they leave the state as it was). *)
Theorem equal_length_invariant pearsonr (ops : list Op) (lg : list (level * string)) :
  Forall same_length ops ->
  let c := pearson_calculator (run_ops pearsonr ops (fresh lg)) in
  len (y_hat c) = len (y c)
  /\ List.length (data (y_hat c)) = List.length (data (y c)).
Proof.
  intros H. apply (balanced_run pearsonr H). apply balanced_init.
Qed.

Lemma equal_length_invariant_witness :
  let ops := [Observe preds3 targets3; Observe scalar0 scalar0; ComputeAndReset;
              Observe preds3 targets3] in
  let c := pearson_calculator (run_ops pearsonr_textbook ops (fresh [])) in
  len (y_hat c) = len (y c)
  /\ List.length (data (y_hat c)) = List.length (data (y c)).
Proof.
  apply (equal_length_invariant pearsonr_textbook).
  repeat constructor.
Defined.

(** Every state a run of operations reaches from the fresh accumulator
    holds two one-dimensional arrays. *)
Lemma flat_run pearsonr (ops : list Op) :
  forall w, flat (pearson_calculator w) ->
  flat (pearson_calculator (run_ops pearsonr ops w)).
Proof.
  induction ops as [|o ops IH]; intros w F; simpl; [exact F|].
  apply IH. destruct o as [p t|]; simpl.
  - destruct (call_final_state p t w F) as [-> | (-> & _ & _)];
      [exact F | apply flat_appended].
  - unfold bind.
    pose proof (calculate_final_state pearsonr w) as H.
    destruct (calculate_pearson pearsonr w) as [r w'|e w']; simpl in *;
      destruct H as [-> | ->]; try exact F; apply flat_init.
Qed.

(** *** C6 *)

(** C6, as stated, fails: after a call with 3 predictions and 4 targets
    [pearsonr] refuses the running sequences; [calculate_pearson] raises what
    it raised and clears nothing, the 3 predictions and the 4 targets are
    still there. *)
Lemma calculate_pearson_raise_clears_nothing :
  let w := run_ops pearsonr_textbook [Observe preds3 targets4] (fresh []) in
  calculate_pearson pearsonr_textbook w
  = Raised (ValueError "x and y must have the same length.") w
  /\ len (y_hat (pearson_calculator w)) = 3
  /\ len (y (pearson_calculator w)) = 4
  /\ pearson_calculator w <> PearsonCalculator_init.
Proof.
  intro w. split; [|split; [|split]]; try reflexivity.
  intro H. apply (f_equal (fun c => len (y c))) in H. vm_compute in H.
  discriminate H.
Qed.

(** C6 (amended): on an accumulator (two one-dimensional running sequences)
    with fewer than two observations [calculate_pearson] logs the warning and
    returns NaN; whenever it returns, on the NaN path or with a coefficient,
    both running sequences are empty afterwards, so a second call right
    after it returns NaN again; when [pearsonr] raises, [calculate_pearson]
    raises the same exception and the state is as before the call. *)
Theorem calculate_pearson_nan_and_reset
  (pearsonr : ndarray -> ndarray -> exn + (float * float)) (w : world) :
  (flat (pearson_calculator w) ->
   len (y (pearson_calculator w)) < 2 ->
   calculate_pearson pearsonr w
   = Returned nan (fresh (logged w ++ [warning_record])))
  /\ (forall (r : float) (w' : world),
        calculate_pearson pearsonr w = Returned r w' ->
        pearson_calculator w' = PearsonCalculator_init
        /\ calculate_pearson pearsonr w'
           = Returned nan (fresh (logged w' ++ [warning_record])))
  /\ (flat (pearson_calculator w) ->
      2 <= len (y (pearson_calculator w)) ->
      forall e : exn,
        pearsonr (y (pearson_calculator w)) (y_hat (pearson_calculator w)) = inl e ->
        calculate_pearson pearsonr w = Raised e w).
Proof.
  split; [|split].
  - intros [_ F]. now apply calculate_few.
  - intros r w' H.
    pose proof (calculate_returned pearsonr w H) as E.
    split; [exact E|].
    apply calculate_few; rewrite E; [reflexivity|]. unfold len. simpl. lia.
  - intros [_ F] L e H. rewrite calculate_enough by assumption.
    now rewrite H.
Qed.

Lemma calculate_pearson_nan_and_reset_witness :
  calculate_pearson pearsonr_textbook (fresh [])
  = Returned nan (fresh [warning_record])
  /\ calculate_pearson pearsonr_textbook three_pairs
     = Returned (S754_finite false 8923284631908304 (-53)) (fresh [])
  /\ calculate_pearson pearsonr_textbook (fresh [])
     = Returned nan (fresh [warning_record]).
Proof.
  split; [|split].
  - apply (proj1 (calculate_pearson_nan_and_reset pearsonr_textbook (fresh []))).
    + apply flat_init.
    + unfold len. simpl. lia.
  - vm_compute. reflexivity.
  - apply (proj1 (proj2 (calculate_pearson_nan_and_reset pearsonr_textbook three_pairs))
             (S754_finite false 8923284631908304 (-53)) (fresh [])).
    vm_compute. reflexivity.
Defined.

(** *** C5 *)

Lemma observe_all_appends (obs : list (ndarray * ndarray)) :
  Forall one_dimensional_pair obs ->
  forall w, flat (pearson_calculator w) ->
  observe_all obs w
  = Returned tt (mk_world (appended_all (pearson_calculator w) obs) (logged w)).
Proof.
  induction 1 as [|[p t] obs (Hp & Ht & _) _ IH]; intros w F.
  - destruct w as [[ph pt] lg]. destruct F as [F1 F2]; simpl in *.
    apply ndim_one in F1, F2. destruct F1 as [n Fn], F2 as [m Fm].
    destruct ph as [sh dh], pt as [st dt]; simpl in *; subst.
    unfold ret, appended_all, len; simpl.
    rewrite !Nat.add_0_r, !app_nil_r. reflexivity.
  - simpl in Hp, Ht. simpl observe_all. unfold bind.
    rewrite call_appends by assumption.
    rewrite IH by apply flat_appended.
    unfold appended_all, appended, len; simpl.
    rewrite !Nat.add_assoc, <- !app_assoc. reflexivity.
Qed.

(** C5: after any number of calls with one-dimensional arrays of equal
    length, [calculate_pearson] returns what it returns after one call with
    the concatenated arrays; with at least two observations that is the
    coefficient [pearsonr] gives on the concatenated targets and
    predictions. *)
Theorem pearson_of_concatenation
  (pearsonr : ndarray -> ndarray -> exn + (float * float))
  (obs : list (ndarray * ndarray)) (lg : list (level * string)) :
  Forall one_dimensional_pair obs ->
  let preds := concat_arrays (map fst obs) in
  let targets := concat_arrays (map snd obs) in
  bind (observe_all obs) (fun _ => calculate_pearson pearsonr) (fresh lg)
  = bind (PearsonCalculator_call preds targets)
      (fun _ => calculate_pearson pearsonr) (fresh lg)
  /\ (2 <= len targets ->
      bind (observe_all obs) (fun _ => calculate_pearson pearsonr) (fresh lg)
      = match pearsonr targets preds with
        | inr p => Returned (fst p) (fresh lg)
        | inl e => Raised e (mk_world (mk_PearsonCalculator preds targets) lg)
        end).
Proof.
  intros H preds targets.
  assert (E : observe_all obs (fresh lg)
              = Returned tt (mk_world (mk_PearsonCalculator preds targets) lg)).
  { rewrite (observe_all_appends H) by apply flat_init. reflexivity. }
  split.
  - unfold bind. rewrite E.
    rewrite call_appends by (try apply flat_init; reflexivity).
    reflexivity.
  - intros L. unfold bind. rewrite E.
    rewrite calculate_enough by (try exact L; reflexivity).
    reflexivity.
Qed.

Lemma pearson_of_concatenation_witness :
  let obs := [(array1 [lit "2.0"; lit "3.0"], array1 [lit "2.1"; lit "2.9"]);
              (array1 [lit "4.0"], array1 [lit "4.2"])] in
  bind (observe_all obs) (fun _ => calculate_pearson pearsonr_textbook) (fresh [])
  = bind (PearsonCalculator_call preds3 targets3)
      (fun _ => calculate_pearson pearsonr_textbook) (fresh [])
  /\ bind (observe_all obs) (fun _ => calculate_pearson pearsonr_textbook) (fresh [])
     = Returned (S754_finite false 8923284631908304 (-53)) (fresh []).
Proof.
  intros obs.
  assert (H : Forall one_dimensional_pair obs) by (repeat constructor).
  split.
  - exact (proj1 (pearson_of_concatenation pearsonr_textbook [] H)).
  - rewrite (proj2 (pearson_of_concatenation pearsonr_textbook [] H))
      by (unfold len; simpl; lia).
    vm_compute. reflexivity.
Defined.

(** ** The numeric decoding *)

Lemma py_float_raises_ValueError (s : string) (e : exn) :
  py_float s = inl e -> exists msg, e = ValueError msg.
Proof.
  unfold py_float.
  destruct (drop_underscores _ _) as [u|]; [|intros [= <-]; eauto].
  destruct (ascii_strtod _) as [[x [|c r]]|]; intros [= <-]; eauto.
Qed.

Lemma setitem_single (z v : float) :
  setitem (mk_ndarray [1] [z]) 0 v = inr (mk_ndarray [1] [v]).
Proof. reflexivity. Qed.

(** The inner loop on a tensor of one element: the first token that parses
    decides. *)
Lemma decode_words_single (words : list string) (z : float) :
  decode_words words 0 (mk_ndarray [1] [z])
  = inr (mk_ndarray [1] [match first_parseable words with
                         | Some x => clamp x
                         | None => z
                         end]).
Proof.
  induction words as [|word rest IH]; simpl; [reflexivity|].
  unfold parses. destruct (py_float word) as [e|x] eqn:E.
  - destruct (py_float_raises_ValueError _ E) as [msg ->]. exact IH.
  - apply setitem_single.
Qed.

(** The loop of the source computes the decoder the spec describes. *)
Lemma decode_refines (text : string) :
  decode text = inr (NumericDecoder_decode text).
Proof.
  unfold decode, decode_generated, NumericDecoder_decode. simpl.
  change (zeros_like (array1 [zero])) with (mk_ndarray [1] [zero]).
  rewrite decode_words_single. reflexivity.
Qed.

Lemma SFcompare_antisym (x y : float) :
  SFcompare y x = match SFcompare x y with
                  | Some c => Some (CompOpp c)
                  | None => None
                  end.
Proof.
  destruct x as [s1|s1| |s1 m1 e1], y as [s2|s2| |s2 m2 e2]; simpl;
    try reflexivity;
    try (destruct s1; reflexivity);
    try (destruct s2; reflexivity);
    try (destruct s1, s2; reflexivity).
  destruct s1, s2; try reflexivity;
    rewrite (Z.compare_antisym e1 e2);
    destruct (e1 ?= e2)%Z; simpl; try reflexivity;
    change (Pos.compare_cont Eq m2 m1) with (Pos.compare m2 m1);
    change (Pos.compare_cont Eq m1 m2) with (Pos.compare m1 m2);
    rewrite (Pos.compare_antisym m1 m2); reflexivity.
Qed.

(** On numbers, [not (x < c)] gives [c <= x]. *)
Lemma not_lt_le (x c : float) :
  is_nan x = false -> is_nan c = false -> flt x c = false -> fle c x = true.
Proof.
  unfold flt, fle, SFltb, SFleb. intros Hx Hc.
  rewrite (SFcompare_antisym x c).
  destruct (SFcompare x c) as [[| |]|] eqn:E; simpl; try reflexivity; try discriminate.
  destruct x, c; simpl in *; discriminate.
Qed.

Lemma clamp_cases (x : float) :
  (fgt x five = true /\ clamp x = five)
  \/ (fgt x five = false /\ flt x one = true /\ clamp x = one)
  \/ (fgt x five = false /\ flt x one = false /\ clamp x = x).
Proof.
  unfold clamp. destruct (fgt x five); [auto|].
  destruct (flt x one); auto.
Qed.

Lemma clamp_in_range (x : float) :
  is_nan x = false -> in_range (clamp x) = true.
Proof.
  intros Hx.
  destruct (clamp_cases x) as [[_ ->] | [(_ & _ & ->) | (H5 & H1 & ->)]];
    try reflexivity.
  unfold in_range. apply andb_true_intro. split.
  - now apply not_lt_le.
  - apply not_lt_le; auto.
Qed.

(** NaN passes both comparisons of the clamp. *)
Lemma clamp_nan : clamp nan = nan.
Proof. reflexivity. Qed.

Lemma decode_nan_passes (text : string) :
  first_parseable (split text) = Some nan -> decode text = inr nan.
Proof.
  intros H. rewrite decode_refines. unfold NumericDecoder_decode.
  rewrite H. reflexivity.
Qed.

Lemma literals_parse :
  py_float "3.2" = inr f3_2 /\ py_float "7.9" = inr f7_9
  /\ py_float "0.1" = inr f0_1 /\ py_float "5.0" = inr five
  /\ py_float "1.0" = inr one /\ py_float "0.0" = inr zero.
Proof. vm_compute. repeat split. Qed.

(** *** C4 *)

(** C4: the decoder returns the first token that parses, clamped by the two
    comparisons, or 0.0 when none parses, and the four examples hold; the
    result lies in [1.0, 5.0] for every text whose first parseable token is
    not a NaN.  On the text "nan" the token parses, passes both comparisons
    and is returned as NaN, outside [1.0, 5.0]. *)
Theorem decode_clamps_all_but_nan :
  (forall text, decode text = inr (NumericDecoder_decode text))
  /\ (forall text, first_parseable (split text) = None -> decode text = inr zero)
  /\ (forall text x,
        first_parseable (split text) = Some x -> is_nan x = false ->
        exists v, decode text = inr v /\ in_range v = true
                  /\ (fgt x five = true -> v = five)
                  /\ (fgt x five = false -> flt x one = true -> v = one)
                  /\ (fgt x five = false -> flt x one = false -> v = x))
  /\ (decode "3.2 points" = inr f3_2 /\ decode "7.9" = inr five
      /\ decode "0.1" = inr one /\ decode "no numbers here" = inr zero)
  /\ (decode "nan" = inr nan /\ in_range nan = false /\ feq nan zero = false).
Proof.
  split; [exact decode_refines|].
  split.
  { intros text H. rewrite decode_refines. unfold NumericDecoder_decode.
    now rewrite H. }
  split.
  { intros text x H Hx. exists (clamp x).
    rewrite decode_refines. unfold NumericDecoder_decode. rewrite H.
    split; [reflexivity|]. split; [now apply clamp_in_range|].
    unfold clamp. repeat split.
    - now intros ->.
    - now intros -> ->.
    - now intros -> ->. }
  split; vm_compute; repeat split.
Qed.

Lemma decode_clamps_all_but_nan_witness :
  (exists v, decode "about 4.5 or so" = inr v /\ in_range v = true
             /\ (fgt (lit "4.5") five = false -> flt (lit "4.5") one = false
                 -> v = lit "4.5"))
  /\ decode "nothing" = inr zero.
Proof.
  destruct decode_clamps_all_but_nan as (_ & Hnone & Hsome & _).
  split.
  - destruct (Hsome "about 4.5 or so" (lit "4.5")) as (v & E & R & _ & _ & K).
    + vm_compute. reflexivity.
    + reflexivity.
    + exists v. auto.
  - apply Hnone. vm_compute. reflexivity.
Defined.

(** *** C9 *)

(** C9: there is a text whose first parseable token is [nan]; [float]
    accepts it, neither [number > 5.0] nor [number < 1.0] holds, and the
    decoded value is NaN: not the fallback 0.0 and not in [1.0, 5.0]. *)
Theorem decode_nan_token :
  exists text : string,
    split text = ["score"; "nan"; "2.5"]
    /\ parses "score" = None /\ py_float "nan" = inr nan
    /\ first_parseable (split text) = Some nan
    /\ fgt nan five = false /\ flt nan one = false
    /\ decode text = inr nan
    /\ feq nan zero = false /\ in_range nan = false.
Proof.
  exists "score nan 2.5".
  assert (H : first_parseable (split "score nan 2.5") = Some nan)
    by (vm_compute; reflexivity).
  split; [vm_compute; reflexivity|].
  split; [vm_compute; reflexivity|].
  split; [vm_compute; reflexivity|].
  split; [exact H|].
  split; [reflexivity|].
  split; [reflexivity|].
  split; [now apply decode_nan_passes|].
  split; reflexivity.
Qed.

(** ** The constructor *)

Section InitFacts.

Variable Tokenizer : Type.
Variable get_custom_vocab : exn + Tokenizer.
Variable T5Tokenizer_from_pretrained : string -> exn + Tokenizer.
Variable glob : string -> list string.
Variable StateDict : Type.
Variable PretrainedConfig_from_json_file : string -> exn + PretrainedConfig.
Variable torch_load : string -> exn + StateDict.
Variable from_pretrained :
  T5Class -> string + PretrainedConfig * StateDict -> exn + PretrainedConfig.

Let init := T5ASSIN_init get_custom_vocab T5Tokenizer_from_pretrained glob
              PretrainedConfig_from_json_file torch_load from_pretrained.
Let tokenizer_of := load_tokenizer get_custom_vocab T5Tokenizer_from_pretrained.
Let backbone_of := load_backbone glob PretrainedConfig_from_json_file torch_load
                     from_pretrained.

Lemma unknown_mode_tests (a : string) :
  str_in a known_modes = false ->
  String.eqb a "mlp" = false /\ String.eqb a "categoric" = false
  /\ String.eqb a "gen" = false /\ String.eqb a "categoric_gen" = false.
Proof.
  unfold known_modes, str_in. simpl.
  destruct (String.eqb a "mlp"), (String.eqb a "categoric"),
    (String.eqb a "gen"), (String.eqb a "categoric_gen"); simpl;
    intros H; try discriminate H; auto.
Qed.

Lemma nn_Linear_ok (nin k : Z) :
  (0 <= nin)%Z -> (0 <= k)%Z -> nn_Linear nin k = inr (mk_Linear nin k).
Proof.
  intros H1 H2. unfold nn_Linear.
  destruct (Z.ltb_spec nin 0); [lia|]. destruct (Z.ltb_spec k 0); [lia|].
  reflexivity.
Qed.

(** The constructor once the tokenizer, the size and the pretrained network
    are there. *)
Ltac after_loading Ht Hs Hb :=
  unfold init, T5ASSIN_init, bind;
  fold tokenizer_of; rewrite Ht; simpl;
  rewrite Hs; simpl;
  fold backbone_of; rewrite Hb.

(** *** C2 *)

(** C2 (amended): a mode string outside "mlp", "categoric", "gen" and
    "categoric_gen" is not rejected.  Whenever the tokenizer, the model size
    and the pretrained network load, the constructor returns, and the model
    it builds is the default one: the [T5Model] backbone, a linear head with
    one output, the mean-squared-error loss and an empty accumulator. *)
Theorem unknown_mode_builds_default (h : Hparams) (w w1 : world)
  (tok : Tokenizer) (sz : string) (cfg : PretrainedConfig) :
  str_in (architecture h) known_modes = false ->
  tokenizer_of h = inr tok ->
  detect_size (model_name h) = inr sz ->
  backbone_of h sz w = Returned cfg w1 ->
  (0 <= d_model cfg)%Z ->
  init h w
  = Returned (mk_T5ASSIN h tok sz (T5 T5Model cfg)
                (Some (mk_Linear (d_model cfg) 1)) MSELoss)
      (mk_world PearsonCalculator_init (logged w1 ++ [done_record])).
Proof.
  intros Hm Ht Hs Hb Hd.
  destruct (unknown_mode_tests _ Hm) as (M1 & M2 & M3 & M4).
  after_loading Ht Hs Hb.
  unfold backbone_class, generative, str_in. simpl.
  rewrite M1, M2, M3, M4. simpl.
  rewrite nn_Linear_ok by lia. reflexivity.
Qed.

(** *** C8 *)

(** C8: in the mode "categoric" the constructor never returns with one
    class: once the tokenizer, the size and the pretrained network are
    loaded it raises the assertion error on [nout]; with three classes it
    returns, with a linear head of three outputs and the cross-entropy
    loss. *)
Theorem categoric_needs_two_classes (h : Hparams) (w : world) :
  architecture h = "categoric" ->
  (nout h = 1%Z -> raised (init h w) = true)
  /\ (forall (w1 : world) (tok : Tokenizer) (sz : string) (cfg : PretrainedConfig),
        tokenizer_of h = inr tok ->
        detect_size (model_name h) = inr sz ->
        backbone_of h sz w = Returned cfg w1 ->
        (nout h = 1%Z ->
         init h w = Raised (AssertionError (Some nout_message)) w1)
        /\ (nout h = 3%Z -> (0 <= d_model cfg)%Z ->
            init h w
            = Returned (mk_T5ASSIN h tok sz (T5 T5Model cfg)
                          (Some (mk_Linear (d_model cfg) 3)) CrossEntropyLoss)
                (mk_world PearsonCalculator_init (logged w1 ++ [done_record])))).
Proof.
  intros Ha.
  assert (Hrest : forall w1 tok sz cfg,
             tokenizer_of h = inr tok ->
             detect_size (model_name h) = inr sz ->
             backbone_of h sz w = Returned cfg w1 ->
             nout h = 1%Z ->
             init h w = Raised (AssertionError (Some nout_message)) w1).
  { intros w1 tok sz cfg Ht Hs Hb Hn.
    after_loading Ht Hs Hb.
    unfold backbone_class. rewrite Ha, Hn. reflexivity. }
  split.
  - intros Hn.
    destruct (tokenizer_of h) as [e|tok] eqn:Ht.
    { unfold init, T5ASSIN_init, bind. fold tokenizer_of. rewrite Ht. reflexivity. }
    destruct (detect_size (model_name h)) as [e|sz] eqn:Hs.
    { unfold init, T5ASSIN_init, bind. fold tokenizer_of. rewrite Ht. simpl.
      rewrite Hs. reflexivity. }
    destruct (backbone_of h sz w) as [cfg w1|e w1] eqn:Hb.
    + rewrite (Hrest w1 tok sz cfg eq_refl eq_refl Hb Hn). reflexivity.
    + after_loading Ht Hs Hb. reflexivity.
  - intros w1 tok sz cfg Ht Hs Hb. split.
    + intros Hn. exact (Hrest w1 tok sz cfg Ht Hs Hb Hn).
    + intros Hn Hd. after_loading Ht Hs Hb.
      unfold backbone_class. rewrite Ha, Hn. simpl.
      rewrite nn_Linear_ok by lia. reflexivity.
Qed.

End InitFacts.

(** *** The constructor on the installation *)

(** C2, as stated, fails: with the mode "bogus" the constructor returns,
    with the default model. *)
Lemma bogus_mode_accepted :
  str_in "bogus" known_modes = false
  /\ installed_init (t5_small "bogus" 1) (fresh [])
     = Returned (mk_T5ASSIN (t5_small "bogus" 1) tt "small"
                   (T5 T5Model (mk_PretrainedConfig 512))
                   (Some (mk_Linear 512 1)) MSELoss)
         (fresh (t5_log ++ [done_record])).
Proof. split; vm_compute; reflexivity. Qed.

Lemma unknown_mode_builds_default_witness :
  installed_init (ptt5_base "similarity" 1) (fresh [])
  = Returned (mk_T5ASSIN (ptt5_base "similarity" 1) tt "base"
                (T5 T5Model (mk_PretrainedConfig 768))
                (Some (mk_Linear 768 1)) MSELoss)
      (fresh (ptt5_log ++ [done_record])).
Proof.
  apply (@unknown_mode_builds_default unit (inr tt) (fun _ => inr tt) disk unit
           read_config (fun _ => inr tt) hub
           (ptt5_base "similarity" 1) (fresh []) (fresh ptt5_log)).
  - reflexivity.
  - reflexivity.
  - reflexivity.
  - vm_compute. reflexivity.
  - simpl. lia.
Defined.

Lemma categoric_needs_two_classes_witness :
  raised (installed_init (t5_small "categoric" 1) (fresh [])) = true
  /\ installed_init (t5_small "categoric" 1) (fresh [])
     = Raised (AssertionError (Some nout_message)) (fresh t5_log)
  /\ installed_init (t5_small "categoric" 3) (fresh [])
     = Returned (mk_T5ASSIN (t5_small "categoric" 3) tt "small"
                   (T5 T5Model (mk_PretrainedConfig 512))
                   (Some (mk_Linear 512 3)) CrossEntropyLoss)
         (fresh (t5_log ++ [done_record])).
Proof.
  pose proof (@categoric_needs_two_classes unit (inr tt) (fun _ => inr tt) disk unit
                read_config (fun _ => inr tt) hub) as T.
  split; [|split].
  - apply (proj1 (T (t5_small "categoric" 1) (fresh []) eq_refl)). reflexivity.
  - apply (proj2 (T (t5_small "categoric" 1) (fresh []) eq_refl)
             (fresh t5_log) tt "small" (mk_PretrainedConfig 512)
             eq_refl eq_refl eq_refl).
    reflexivity.
  - apply (proj2 (T (t5_small "categoric" 3) (fresh []) eq_refl)
             (fresh t5_log) tt "small" (mk_PretrainedConfig 512)
             eq_refl eq_refl eq_refl).
    + reflexivity.
    + simpl. lia.
Defined.

(** ** The ["mlp"] branch of [forward] *)

Lemma mapi_from_length {A B} (g : nat -> A -> B) (l : list A) :
  forall i, List.length (Mlp.mapi_from i g l) = List.length l.
Proof. induction l as [|a l IH]; intros i; simpl; [|rewrite IH]; reflexivity. Qed.

Lemma dropout_length training keep (v : list float) :
  List.length (Mlp.dropout training keep v) = List.length v.
Proof.
  unfold Mlp.dropout. destruct training; [apply mapi_from_length | reflexivity].
Qed.


(** *** C3 *)



(** ** The validation hooks in the mode "gen" *)

Lemma keeps_ret {A} (a : A) : keeps_state (ret a).
Proof. intros w. reflexivity. Qed.

Lemma keeps_lift {A} (r : exn + A) : keeps_state (lift r).
Proof. intros w. destruct r; reflexivity. Qed.

Lemma keeps_bind {A B} (c : M world A) (k : A -> M world B) :
  keeps_state c -> (forall a, keeps_state (k a)) -> keeps_state (bind c k).
Proof.
  intros Hc Hk w. unfold bind. specialize (Hc w).
  destruct (c w) as [a w'|e w']; simpl in Hc; subst w'; [apply Hk | reflexivity].
Qed.

Lemma keeps_mapM {A B} (g : A -> M world B) (l : list A) :
  (forall a, keeps_state (g a)) -> keeps_state (mapM g l).
Proof.
  intros Hg. induction l as [|a l IH]; simpl.
  - apply keeps_ret.
  - apply keeps_bind; [apply Hg|]. intros b.
    apply keeps_bind; [exact IH|]. intros bs. apply keeps_ret.
Qed.

(** Such a computation returns or raises in the state it started from. *)
Lemma keeps_outcome {A} (c : M world A) (w : world) :
  keeps_state c ->
  (exists a, c w = Returned a w) \/ (exists e, c w = Raised e w).
Proof.
  intros H. specialize (H w).
  destruct (c w) as [a w'|e w']; simpl in H; subst w'; eauto.
Qed.

Section GenFacts.

Variable pearsonr : ndarray -> ndarray -> exn + (float * float).
Variable Tokenizer : Type.
Variable tokenizer_decode : Tokenizer -> list Z -> string.
Variable loss_fn : Loss -> ndarray -> ndarray -> exn + float.
Variable argmax_accuracy : ndarray -> ndarray -> exn + float.
Variable tensor_mean : list float -> float.
Variable self : T5ASSIN Tokenizer.

Hypothesis gen_mode : architecture (hparams self) = "gen".

Let step (net : Network) :=
  validation_step tokenizer_decode net loss_fn argmax_accuracy tensor_mean self.
Let steps (net : Network) :=
  validation_steps tokenizer_decode net loss_fn argmax_accuracy tensor_mean self.
Let epoch (net : Network) :=
  validation_epoch pearsonr tokenizer_decode net loss_fn argmax_accuracy
    tensor_mean self.
Let epoch_end := validation_epoch_end pearsonr tensor_mean self.

(** The step of the mode "gen" never touches the accumulator, nor the log. *)
Lemma gen_step_keeps_state (net : Network) (batch : Batch.t) (batch_idx : nat) :
  keeps_state (step net batch batch_idx).
Proof.
  unfold step, validation_step. rewrite gen_mode. simpl.
  repeat (apply keeps_bind; [apply keeps_lift | intros ?]).
  apply keeps_ret.
Qed.

Lemma gen_steps_keep_state (net : Network) (batches : list Batch.t) :
  forall batch_idx, keeps_state (steps net batches batch_idx).
Proof.
  induction batches as [|b rest IH]; intros i; simpl.
  - apply keeps_ret.
  - apply keeps_bind; [apply gen_step_keeps_state|]. intros o.
    apply keeps_bind; [apply IH|]. intros os. apply keeps_ret.
Qed.

Lemma stack_mean_keeps_state (key : string) (outputs : list dict) :
  keeps_state (stack_mean tensor_mean key outputs).
Proof.
  unfold stack_mean. apply keeps_bind.
  - apply keeps_mapM. intros x. apply keeps_lift.
  - intros [|v vs]; intros w; reflexivity.
Qed.

(** The epoch-end hook on an empty accumulator: the warning, NaN. *)
Lemma gen_epoch_end_empty (outputs : list dict) (w : world) :
  pearson_calculator w = PearsonCalculator_init ->
  (exists loss, epoch_end outputs w
                = Returned (gen_report loss) (fresh (logged w ++ [warning_record])))
  \/ (exists e, epoch_end outputs w = Raised e w).
Proof.
  intros Hc. unfold epoch_end, validation_epoch_end. rewrite gen_mode. simpl.
  unfold bind.
  destruct (keeps_outcome w (stack_mean_keeps_state "loss" outputs))
    as [[loss ->] | [e ->]]; [left | right; eauto].
  exists loss. rewrite calculate_few; rewrite ?Hc; [reflexivity|reflexivity|].
  unfold len. simpl. lia.
Qed.

Lemma gen_epoch_empty (net : Network) (batches : list Batch.t) (w : world) :
  pearson_calculator w = PearsonCalculator_init ->
  (exists loss, epoch net batches w
                = Returned (gen_report loss) (fresh (logged w ++ [warning_record])))
  \/ (exists e, epoch net batches w = Raised e w).
Proof.
  intros Hc.
  destruct (keeps_outcome w (gen_steps_keep_state net batches 0))
    as [[outputs E] | [e E]];
    unfold steps in E; unfold epoch, validation_epoch, bind; rewrite E.
  - apply gen_epoch_end_empty. exact Hc.
  - right. eauto.
Qed.

Lemma gen_epochs_report_nan (epochs : list (Network * list Batch.t)) :
  forall w, pearson_calculator w = PearsonCalculator_init ->
  match run_epochs pearsonr tokenizer_decode loss_fn argmax_accuracy tensor_mean
          self epochs w with
  | Returned outs w' =>
      List.length outs = List.length epochs /\ Forall reports_nan outs
      /\ pearson_calculator w' = PearsonCalculator_init
  | Raised _ w' => pearson_calculator w' = PearsonCalculator_init
  end.
Proof.
  unfold run_epochs.
  induction epochs as [|[net batches] rest IH]; intros w Hc; simpl.
  - auto.
  - unfold bind.
    destruct (gen_epoch_empty net batches w Hc) as [[loss E] | [e E]];
      unfold epoch in E; rewrite E; [|exact Hc].
    specialize (IH (fresh (logged w ++ [warning_record])) eq_refl).
    destruct (mapM _ rest _) as [outs w'|e w']; [|exact IH].
    destruct IH as (L & F & C). simpl. repeat split; auto.
    constructor; [reflexivity | exact F].
Qed.

Lemma gen_step_returns (net : Network) (batch : Batch.t) (batch_idx : nat)
  (l : float) (w : world) :
  gen_batch_loss tokenizer_decode loss_fn self net batch l ->
  step net batch batch_idx w = Returned [("loss", l)] w.
Proof.
  intros (rows & t & Hg & Hd & Hl).
  unfold step, validation_step, forward. rewrite gen_mode. simpl.
  unfold bind. rewrite Hg. simpl. rewrite Hd. simpl. rewrite Hl. reflexivity.
Qed.

Lemma gen_steps_return (net : Network) (batches : list Batch.t)
  (losses : list float) :
  Forall2 (gen_batch_loss tokenizer_decode loss_fn self net) batches losses ->
  forall batch_idx w,
  steps net batches batch_idx w
  = Returned (map (fun l => [("loss", l)]) losses) w.
Proof.
  induction 1 as [|b l bs ls Hb _ IH]; intros i w; simpl; [reflexivity|].
  unfold bind. fold (step net). rewrite (gen_step_returns i w Hb).
  fold (steps net). rewrite IH. reflexivity.
Qed.

Lemma stack_mean_losses (losses : list float) (w : world) :
  losses <> [] ->
  stack_mean tensor_mean "loss" (map (fun l => [("loss", l)]) losses) w
  = Returned (tensor_mean losses) w.
Proof.
  intros Hne. unfold stack_mean, bind.
  assert (E : forall ls, mapM (S := world)
                (fun x => lift (dict_get x "loss"))
                (map (fun l => [("loss", l)]) ls) w = Returned ls w).
  { induction ls as [|l ls IH]; simpl; [reflexivity|].
    unfold bind. simpl. rewrite IH. reflexivity. }
  rewrite E. destruct losses; [contradiction | reflexivity].
Qed.

(** An epoch of the mode "gen" with at least one batch returns whenever the
    collaborators do, and reports NaN. *)
Lemma gen_epoch_returns (net : Network) (batches : list Batch.t)
  (losses : list float) (w : world) :
  Forall2 (gen_batch_loss tokenizer_decode loss_fn self net) batches losses ->
  batches <> [] ->
  pearson_calculator w = PearsonCalculator_init ->
  epoch net batches w
  = Returned (gen_report (tensor_mean losses)) (fresh (logged w ++ [warning_record])).
Proof.
  intros H Hne Hc. unfold epoch, validation_epoch, bind.
  fold (steps net). rewrite (gen_steps_return H).
  unfold validation_epoch_end. rewrite gen_mode. simpl. unfold bind.
  rewrite stack_mean_losses.
  - rewrite calculate_few; rewrite ?Hc; [reflexivity|reflexivity|].
    unfold len. simpl. lia.
  - intros ->. inversion H. subst. contradiction.
Qed.

End GenFacts.

(** The constructor leaves the accumulator empty. *)
Lemma init_empties_accumulator (Tokenizer StateDict : Type)
  (get_custom_vocab : exn + Tokenizer)
  (T5Tokenizer_from_pretrained : string -> exn + Tokenizer)
  (glob : string -> list string)
  (PretrainedConfig_from_json_file : string -> exn + PretrainedConfig)
  (torch_load : string -> exn + StateDict)
  (from_pretrained :
     T5Class -> string + PretrainedConfig * StateDict -> exn + PretrainedConfig)
  (h : Hparams) (w0 w : world) (self : T5ASSIN Tokenizer) :
  T5ASSIN_init get_custom_vocab T5Tokenizer_from_pretrained glob
    PretrainedConfig_from_json_file torch_load from_pretrained h w0
  = Returned self w ->
  hparams self = h /\ pearson_calculator w = PearsonCalculator_init.
Proof.
  unfold T5ASSIN_init, bind.
  destruct (lift (load_tokenizer _ _ h) w0) as [tok w1|]; [|discriminate].
  destruct (lift (detect_size _) w1) as [sz w2|]; [|discriminate].
  destruct (load_backbone _ _ _ _ h sz w2) as [cfg w3|]; [|discriminate].
  destruct (if String.eqb (architecture h) "mlp" then _ else _) as [b w4|];
    [|discriminate].
  destruct (if negb (generative (architecture h)) then _ else _) as [l w5|];
    [|discriminate].
  simpl. intros [= <- <-]. split; reflexivity.
Qed.

(** *** C10 *)

(** C10: in the mode "gen" the validation step leaves the accumulator (and
    the log) as it found them, so the epoch-end hook computes the
    coefficient of an empty accumulator: every epoch that reports logs the
    warning and reports NaN as [val_pearson], epoch after epoch. *)
Theorem gen_epoch_pearson_is_nan
  (pearsonr : ndarray -> ndarray -> exn + (float * float))
  (Tokenizer : Type) (tokenizer_decode : Tokenizer -> list Z -> string)
  (loss_fn : Loss -> ndarray -> ndarray -> exn + float)
  (argmax_accuracy : ndarray -> ndarray -> exn + float)
  (tensor_mean : list float -> float)
  (self : T5ASSIN Tokenizer) :
  architecture (hparams self) = "gen" ->
  (forall net batch batch_idx w,
     final_state (validation_step tokenizer_decode net loss_fn argmax_accuracy
                    tensor_mean self batch batch_idx w) = w)
  /\ (forall net batches w,
        pearson_calculator w = PearsonCalculator_init ->
        (exists loss,
            validation_epoch pearsonr tokenizer_decode net loss_fn
              argmax_accuracy tensor_mean self batches w
            = Returned (gen_report loss) (fresh (logged w ++ [warning_record])))
        \/ (exists e,
               validation_epoch pearsonr tokenizer_decode net loss_fn
                 argmax_accuracy tensor_mean self batches w
               = Raised e w))
  /\ (forall epochs w,
        pearson_calculator w = PearsonCalculator_init ->
        match run_epochs pearsonr tokenizer_decode loss_fn argmax_accuracy
                tensor_mean self epochs w with
        | Returned outs w' =>
            List.length outs = List.length epochs /\ Forall reports_nan outs
            /\ pearson_calculator w' = PearsonCalculator_init
        | Raised _ w' => pearson_calculator w' = PearsonCalculator_init
        end).
Proof.
  intros Hg. split; [|split].
  - intros net batch batch_idx.
    apply (gen_step_keeps_state tokenizer_decode loss_fn argmax_accuracy
             tensor_mean self Hg).
  - intros net batches w.
    apply (gen_epoch_empty pearsonr tokenizer_decode loss_fn argmax_accuracy
             tensor_mean self Hg).
  - intros epochs.
    apply (gen_epochs_report_nan pearsonr tokenizer_decode loss_fn argmax_accuracy
             tensor_mean self Hg).
Qed.

(** The model of the run is the one the constructor builds. *)

Lemma gen_model_constructed :
  installed_init (t5_small "gen" 1) (fresh [])
  = Returned gen_model (fresh (t5_log ++ [done_record])).
Proof. vm_compute. reflexivity. Qed.

Lemma gen_epoch_pearson_is_nan_witness :
  run_epochs pearsonr_textbook vocabulary mse_loss no_accuracy mean_of gen_model
    two_epochs (fresh (t5_log ++ [done_record]))
  = Returned [gen_report (lit "0.5"); gen_report (lit "0.25")]
      (fresh (t5_log ++ [done_record; warning_record; warning_record]))
  /\ match run_epochs pearsonr_textbook vocabulary mse_loss no_accuracy mean_of
             gen_model two_epochs (fresh (t5_log ++ [done_record])) with
     | Returned outs w' =>
         List.length outs = 2 /\ Forall reports_nan outs
         /\ pearson_calculator w' = PearsonCalculator_init
     | Raised _ w' => pearson_calculator w' = PearsonCalculator_init
     end.
Proof.
  split.
  - vm_compute. reflexivity.
  - apply (proj2 (proj2 (gen_epoch_pearson_is_nan pearsonr_textbook vocabulary
                           mse_loss no_accuracy mean_of gen_model eq_refl))
             two_epochs (fresh (t5_log ++ [done_record]))).
    reflexivity.
Defined.

(** * Further properties *)

(** ** The accumulator *)

Lemma calculate_log pearsonr (w : world) :
  logged (final_state (calculate_pearson pearsonr w)) = logged w
  \/ logged (final_state (calculate_pearson pearsonr w))
     = (logged w ++ [warning_record])%list.
Proof.
  unfold calculate_pearson, bind, read_calc, py_len; simpl.
  destruct (shape (y (pearson_calculator w))) as [|n r]; simpl.
  { left. destruct w; reflexivity. }
  destruct (Nat.ltb n 2); simpl.
  { right. reflexivity. }
  destruct (pearsonr _ _) as [e|p]; simpl; left; destruct w; reflexivity.
Qed.

(** X1: when [pearsonr] raises, [calculate_pearson] raises the same
    exception and clears nothing: both running sequences and the log are as
    before the call. *)
Theorem calculate_pearson_propagates
  (pearsonr : ndarray -> ndarray -> exn + (float * float)) (w : world) (e : exn) :
  ndim (y (pearson_calculator w)) = 1 ->
  2 <= len (y (pearson_calculator w)) ->
  pearsonr (y (pearson_calculator w)) (y_hat (pearson_calculator w)) = inl e ->
  calculate_pearson pearsonr w = Raised e w.
Proof.
  intros F L H. rewrite calculate_enough by assumption. rewrite H. reflexivity.
Qed.

Lemma calculate_pearson_propagates_witness :
  let w := mk_world (appended PearsonCalculator_init preds3 targets4) [] in
  calculate_pearson pearsonr_textbook w
  = Raised (ValueError "x and y must have the same length.") w.
Proof.
  intros w. apply calculate_pearson_propagates.
  - reflexivity.
  - vm_compute. lia.
  - reflexivity.
Defined.

Lemma sound_step pearsonr (o : Op) (w : world) :
  observes_well_formed o -> sound (pearson_calculator w) ->
  sound (pearson_calculator (final_state (run_op pearsonr o w))).
Proof.
  intros Ho (F & Wh & Wt). destruct o as [p t|]; simpl in *.
  - destruct (call_final_state p t w F) as [-> | (-> & Hp & Ht)].
    + exact (conj F (conj Wh Wt)).
    + destruct Ho as [Hwp Hwt]. specialize (Hwp Hp). specialize (Hwt Ht).
      split; [apply flat_appended|].
      unfold well_formed1, appended, len in *. simpl.
      rewrite !length_app. lia.
  - unfold bind.
    pose proof (calculate_final_state pearsonr w) as H.
    destruct (calculate_pearson pearsonr w) as [r w'|e w']; simpl in *;
      destruct H as [-> | ->]; try exact (conj F (conj Wh Wt));
      repeat split.
Qed.

(** X2: from the fresh accumulator, as long as every one-dimensional array
    handed to a call holds as many elements as its shape says, so do the two
    running sequences after any run of calls and resets. *)
Theorem running_sequences_well_formed
  (pearsonr : ndarray -> ndarray -> exn + (float * float))
  (ops : list Op) (lg : list (level * string)) :
  Forall observes_well_formed ops ->
  let c := pearson_calculator (run_ops pearsonr ops (fresh lg)) in
  well_formed1 (y_hat c) /\ well_formed1 (y c).
Proof.
  intros H.
  assert (G : forall w, sound (pearson_calculator w) ->
                        sound (pearson_calculator (run_ops pearsonr ops w))).
  { induction H as [|o ops Ho _ IH]; intros w S; simpl; [exact S|].
    apply IH. now apply sound_step. }
  apply (G (fresh lg)). repeat split.
Qed.

Lemma running_sequences_well_formed_witness :
  let ops := [Observe preds3 targets4; Observe scalar0 targets3; ComputeAndReset;
              Observe preds3 targets3] in
  let c := pearson_calculator (run_ops pearsonr_textbook ops (fresh [])) in
  well_formed1 (y_hat c) /\ well_formed1 (y c).
Proof.
  apply (running_sequences_well_formed pearsonr_textbook).
  repeat constructor; intros H; try reflexivity; discriminate H.
Defined.

(** X3: the accumulator writes nothing to the log but the warning of the
    NaN path: after any run of calls and resets the log is the initial one
    followed by that warning, at most once per reset. *)
Theorem log_holds_only_warnings
  (pearsonr : ndarray -> ndarray -> exn + (float * float))
  (ops : list Op) (lg : list (level * string)) :
  exists k : nat,
    k <= count_resets ops
    /\ logged (run_ops pearsonr ops (fresh lg))
       = (lg ++ repeat warning_record k)%list.
Proof.
  assert (G : forall w, flat (pearson_calculator w) ->
            exists k, k <= count_resets ops
                      /\ logged (run_ops pearsonr ops w)
                         = (logged w ++ repeat warning_record k)%list).
  { induction ops as [|o ops IH]; intros w F; simpl.
    - exists 0. split; [lia|]. simpl. now rewrite app_nil_r.
    - assert (F' : flat (pearson_calculator (final_state (run_op pearsonr o w)))).
      { apply (flat_run pearsonr [o] w F). }
      destruct (IH _ F') as (k & Hk & E). rewrite E.
      destruct o as [p t|]; simpl.
      + exists k. split; [exact Hk|].
        destruct (call_final_state p t w F) as [-> | (-> & _ & _)]; reflexivity.
      + unfold count_resets in *. simpl. unfold bind.
        pose proof (calculate_log pearsonr w) as H.
        destruct (calculate_pearson pearsonr w) as [r w'|e w']; simpl in *;
          destruct H as [-> | ->].
        * exists k. split; [lia | reflexivity].
        * exists (S k). split; [lia|]. rewrite <- app_assoc. reflexivity.
        * exists k. split; [lia | reflexivity].
        * exists (S k). split; [lia|]. rewrite <- app_assoc. reflexivity. }
  apply (G (fresh lg)). apply flat_init.
Qed.

(** ** The decoding loop on a batch *)

Lemma zeros_like_flat (t : ndarray) (k : nat) :
  shape t = [k] -> List.length (data t) = k ->
  zeros_like t = mk_ndarray [k] (repeat zero k).
Proof.
  intros Hs Hd. unfold zeros_like. rewrite Hs. f_equal.
  rewrite <- Hd. clear Hs Hd.
  induction (data t) as [|a l IH]; simpl; [|rewrite IH]; reflexivity.
Qed.

Lemma setitem_inside (d : list float) (k n : nat) (v : float) :
  n < k ->
  setitem (mk_ndarray [k] d) n v
  = inr (mk_ndarray [k] (firstn n d ++ v :: skipn (S n) d)).
Proof.
  intros H. unfold setitem, tensor_cast. cbn [shape data].
  destruct (Nat.ltb_spec n k) as [_|L]; [|lia].
  change (size_of []) with 1.
  rewrite !Nat.mul_1_r, Nat.add_1_r. reflexivity.
Qed.

Lemma setitem_outside (d : list float) (k n : nat) (v : float) :
  k <= n ->
  setitem (mk_ndarray [k] d) n v = inl (IndexError "index out of range").
Proof.
  intros H. unfold setitem. cbn [shape data].
  destruct (Nat.ltb_spec n k) as [L|_]; [lia | reflexivity].
Qed.

Lemma decode_words_inside (words : list string) (d : list float) (k n : nat) :
  n < k ->
  decode_words words n (mk_ndarray [k] d)
  = inr (match first_parseable words with
         | Some x => mk_ndarray [k] (firstn n d ++ clamp x :: skipn (S n) d)
         | None => mk_ndarray [k] d
         end).
Proof.
  intros H. induction words as [|word rest IH]; simpl; [reflexivity|].
  unfold parses. destruct (py_float word) as [e|x] eqn:E.
  - destruct (py_float_raises_ValueError _ E) as [msg ->]. exact IH.
  - now apply setitem_inside.
Qed.

Lemma decode_words_outside (words : list string) (d : list float) (k n : nat) :
  k <= n ->
  decode_words words n (mk_ndarray [k] d)
  = match first_parseable words with
    | Some _ => inl (IndexError "index out of range")
    | None => inr (mk_ndarray [k] d)
    end.
Proof.
  intros H. induction words as [|word rest IH]; simpl; [reflexivity|].
  unfold parses. destruct (py_float word) as [e|x] eqn:E.
  - destruct (py_float_raises_ValueError _ E) as [msg ->]. exact IH.
  - now apply setitem_outside.
Qed.

Lemma firstn_filled {A} (f r : list A) : firstn (List.length f) (f ++ r) = f.
Proof. induction f as [|a f IH]; simpl; [now destruct r | now rewrite IH]. Qed.

Lemma skipn_filled {A} (f r : list A) (a : A) :
  skipn (S (List.length f)) (f ++ a :: r) = r.
Proof. induction f as [|b f IH]; simpl; [reflexivity | exact IH]. Qed.

Lemma decode_phrases_inside (k : nat) (ps : list string) :
  forall (filled : list float),
  List.length filled + List.length ps <= k ->
  decode_phrases ps (List.length filled)
    (mk_ndarray [k] (filled ++ repeat zero (k - List.length filled)))
  = inr (mk_ndarray [k]
           (filled ++ map NumericDecoder_decode ps
              ++ repeat zero (k - List.length filled - List.length ps))).
Proof.
  induction ps as [|p ps IH]; intros filled H; simpl in *.
  - now rewrite Nat.sub_0_r.
  - rewrite decode_words_inside by lia.
    assert (E : k - List.length filled = S (k - List.length filled - 1)) by lia.
    assert (T : (match first_parseable (split p) with
                 | Some x =>
                     mk_ndarray [k]
                       (firstn (List.length filled)
                          (filled ++ repeat zero (k - List.length filled))
                        ++ clamp x
                           :: skipn (S (List.length filled))
                                (filled ++ repeat zero (k - List.length filled)))
                 | None =>
                     mk_ndarray [k] (filled ++ repeat zero (k - List.length filled))
                 end)
                = mk_ndarray [k]
                    ((filled ++ [NumericDecoder_decode p])
                       ++ repeat zero (k - List.length (filled ++ [NumericDecoder_decode p])))).
    { rewrite length_app. simpl List.length.
      replace (k - (List.length filled + 1)) with (k - List.length filled - 1) by lia.
      unfold NumericDecoder_decode.
      set (r := k - List.length filled - 1) in *. rewrite E. simpl repeat.
      destruct (first_parseable (split p)) as [x|].
      - rewrite firstn_filled, skipn_filled, <- app_assoc. reflexivity.
      - rewrite <- app_assoc. reflexivity. }
    rewrite T.
    replace (S (List.length filled))
      with (List.length (filled ++ [NumericDecoder_decode p]))
      by (rewrite length_app; simpl; lia).
    rewrite IH by (rewrite length_app; simpl; lia).
    rewrite length_app. simpl List.length.
    rewrite <- app_assoc. simpl.
    replace (k - (List.length filled + 1) - List.length ps)
      with (k - List.length filled - S (List.length ps)) by lia.
    reflexivity.
Qed.

Lemma decode_phrases_app (a b : list string) :
  forall (n : nat) (t : ndarray),
  decode_phrases (a ++ b) n t
  = match decode_phrases a n t with
    | inr t' => decode_phrases b (n + List.length a) t'
    | inl e => inl e
    end.
Proof.
  induction a as [|p a IH]; intros n t; simpl.
  - now rewrite Nat.add_0_r.
  - destruct (decode_words (split p) n t) as [e|t']; [reflexivity|].
    rewrite IH. now rewrite Nat.add_succ_r.
Qed.

Lemma decode_phrases_outside (k : nat) (d : list float) (more : list string) :
  Forall no_number more ->
  forall n, k <= n ->
  decode_phrases more n (mk_ndarray [k] d) = inr (mk_ndarray [k] d).
Proof.
  induction 1 as [|p more Hp _ IH]; intros n Hn; simpl; [reflexivity|].
  rewrite decode_words_outside by exact Hn.
  unfold no_number in Hp. rewrite Hp. apply IH. lia.
Qed.

(** X4: on one-dimensional targets of length [k] and at most [k] generated
    phrases, the decoding loop returns a tensor of the same shape whose
    entry [n] is the decoded value of phrase [n], and 0.0 at the positions
    no phrase stands for. *)
Theorem decode_generated_by_position
  (string_y_hat : list string) (original_number : ndarray) (k : nat) :
  shape original_number = [k] ->
  List.length (data original_number) = k ->
  List.length string_y_hat <= k ->
  decode_generated string_y_hat original_number
  = inr (mk_ndarray [k]
           (map NumericDecoder_decode string_y_hat
              ++ repeat zero (k - List.length string_y_hat))).
Proof.
  intros Hs Hd Hl. unfold decode_generated.
  rewrite (zeros_like_flat _ Hs Hd).
  pose proof (@decode_phrases_inside k string_y_hat [] Hl) as H.
  simpl in H. rewrite Nat.sub_0_r in H. exact H.
Qed.

Lemma decode_generated_by_position_witness :
  decode_generated ["3.2 points"; "no numbers here"] (array1 [zero; zero; zero])
  = inr (mk_ndarray [3] [NumericDecoder_decode "3.2 points";
                         NumericDecoder_decode "no numbers here"; zero]).
Proof.
  apply (@decode_generated_by_position
           ["3.2 points"; "no numbers here"] (array1 [zero; zero; zero]) 3).
  - reflexivity.
  - reflexivity.
  - simpl. lia.
Defined.

(** X5: phrases beyond the length of the targets raise [IndexError] only
    when one of them holds a number: surplus phrases without a parseable
    token are passed over in silence, the first one with such a token stops
    the loop. *)
Theorem surplus_phrases_raise_on_numbers
  (ps more rest : list string) (extra : string) (original_number : ndarray) :
  shape original_number = [List.length ps] ->
  List.length (data original_number) = List.length ps ->
  Forall no_number more ->
  decode_generated (ps ++ more) original_number
  = decode_generated ps original_number
  /\ (~ no_number extra ->
      decode_generated (ps ++ more ++ extra :: rest) original_number
      = inl (IndexError "index out of range")).
Proof.
  intros Hs Hd Hm.
  assert (E : decode_phrases ps 0 (zeros_like original_number)
              = inr (mk_ndarray [List.length ps] (map NumericDecoder_decode ps))).
  { rewrite (zeros_like_flat _ Hs Hd).
    pose proof (@decode_phrases_inside (List.length ps) ps [] (Nat.le_refl _)) as H.
    simpl in H. rewrite Nat.sub_0_r, Nat.sub_diag in H. simpl in H.
    rewrite app_nil_r in H. exact H. }
  unfold decode_generated. split.
  - rewrite decode_phrases_app, E. simpl.
    now apply decode_phrases_outside.
  - intros Hx. rewrite decode_phrases_app, E. simpl.
    rewrite decode_phrases_app, (decode_phrases_outside _ Hm) by lia.
    simpl. rewrite decode_words_outside by lia.
    unfold no_number in Hx.
    destruct (first_parseable (split extra)); [reflexivity | contradiction].
Qed.

Lemma surplus_phrases_raise_on_numbers_witness :
  decode_generated (["4.0"] ++ ["nothing"; "at all"]) (array1 [zero])
  = decode_generated ["4.0"] (array1 [zero])
  /\ decode_generated (["4.0"] ++ ["nothing"; "at all"] ++ "2.5" :: ["3"])
       (array1 [zero])
     = inl (IndexError "index out of range").
Proof.
  destruct (@surplus_phrases_raise_on_numbers
              ["4.0"] ["nothing"; "at all"] ["3"] "2.5" (array1 [zero])
              eq_refl eq_refl) as [A B].
  - repeat constructor.
  - split; [exact A|]. apply B. unfold no_number. vm_compute. discriminate.
Defined.

(** ** The constructor, mode by mode *)

Lemma nn_Linear_inv (nin k : Z) (l : Linear) :
  nn_Linear nin k = inr l -> l = mk_Linear nin k.
Proof.
  unfold nn_Linear. destruct (_ || _); [discriminate|]. now intros [= <-].
Qed.

Section InitMore.

Variable Tokenizer : Type.
Variable get_custom_vocab : exn + Tokenizer.
Variable T5Tokenizer_from_pretrained : string -> exn + Tokenizer.
Variable glob : string -> list string.
Variable StateDict : Type.
Variable PretrainedConfig_from_json_file : string -> exn + PretrainedConfig.
Variable torch_load : string -> exn + StateDict.
Variable from_pretrained :
  T5Class -> string + PretrainedConfig * StateDict -> exn + PretrainedConfig.

Let init := T5ASSIN_init get_custom_vocab T5Tokenizer_from_pretrained glob
              PretrainedConfig_from_json_file torch_load from_pretrained.
Let tokenizer_of := load_tokenizer get_custom_vocab T5Tokenizer_from_pretrained.
Let backbone_of := load_backbone glob PretrainedConfig_from_json_file torch_load
                     from_pretrained.
Let ptt5 := get_ptt5 glob PretrainedConfig_from_json_file torch_load.

(** What the constructor has gone through when it returns. *)
Lemma init_returned (h : Hparams) (w w' : world) (self : T5ASSIN Tokenizer) :
  init h w = Returned self w' ->
  exists tok sz cfg w1 b l,
    tokenizer_of h = inr tok
    /\ detect_size (model_name h) = inr sz
    /\ backbone_of h sz w = Returned cfg w1
    /\ (if String.eqb (architecture h) "mlp"
        then nn_Linear (seq_len h) (d_model cfg) = inr (mk_Linear (seq_len h) (d_model cfg))
             /\ b = NONLinearInput (mk_Linear (seq_len h) (d_model cfg))
        else b = T5 (backbone_class (architecture h)) cfg)
    /\ (if negb (generative (architecture h))
        then if String.eqb (architecture h) "categoric"
             then Z.eqb (nout h) 1 = false
                  /\ l = Some (mk_Linear (d_model cfg) (nout h))
             else l = Some (mk_Linear (d_model cfg) 1)
        else l = None)
    /\ self = mk_T5ASSIN h tok sz b l (loss_of_mode (architecture h))
    /\ w' = mk_world PearsonCalculator_init (logged w1 ++ [done_record]).
Proof.
  unfold init, T5ASSIN_init, bind, loss_of_mode. fold tokenizer_of.
  destruct (tokenizer_of h) as [e|tok]; [discriminate|]. simpl.
  destruct (detect_size (model_name h)) as [e|sz]; [discriminate|]. simpl.
  fold backbone_of.
  destruct (backbone_of h sz w) as [cfg w1|e w1] eqn:Hb; [|discriminate].
  destruct (String.eqb (architecture h) "mlp") eqn:Em.
  - destruct (nn_Linear (seq_len h) (d_model cfg)) as [e|n1] eqn:E1;
      [discriminate|]. simpl.
    pose proof (nn_Linear_inv _ _ E1) as ->.
    destruct (negb (generative (architecture h))).
    + destruct (String.eqb (architecture h) "categoric").
      * unfold assert_. destruct (Z.eqb (nout h) 1); [discriminate|]. simpl.
        destruct (nn_Linear (d_model cfg) (nout h)) as [e|n2] eqn:E2;
          [discriminate|]. simpl.
        pose proof (nn_Linear_inv _ _ E2) as ->.
        intros [= <- <-]. exists tok, sz, cfg, w1.
        do 2 eexists. repeat split; try reflexivity; try assumption.
      * destruct (nn_Linear (d_model cfg) 1) as [e|n2] eqn:E2; [discriminate|].
        simpl. pose proof (nn_Linear_inv _ _ E2) as ->.
        intros [= <- <-]. exists tok, sz, cfg, w1.
        do 2 eexists. repeat split; try reflexivity; try assumption.
    + simpl. intros [= <- <-]. exists tok, sz, cfg, w1.
        do 2 eexists. repeat split; try reflexivity; try assumption.
  - simpl.
    destruct (negb (generative (architecture h))).
    + destruct (String.eqb (architecture h) "categoric").
      * unfold assert_. destruct (Z.eqb (nout h) 1); [discriminate|]. simpl.
        destruct (nn_Linear (d_model cfg) (nout h)) as [e|n2] eqn:E2;
          [discriminate|]. simpl.
        pose proof (nn_Linear_inv _ _ E2) as ->.
        intros [= <- <-]. exists tok, sz, cfg, w1.
        do 2 eexists. repeat split; try reflexivity; try assumption.
      * destruct (nn_Linear (d_model cfg) 1) as [e|n2] eqn:E2; [discriminate|].
        simpl. pose proof (nn_Linear_inv _ _ E2) as ->.
        intros [= <- <-]. exists tok, sz, cfg, w1.
        do 2 eexists. repeat split; try reflexivity; try assumption.
    + simpl. intros [= <- <-]. exists tok, sz, cfg, w1.
        do 2 eexists. repeat split; try reflexivity; try assumption.
Qed.


(** X7: the size of the model is read off the dash-separated parts of
    [model_name], "small" before "base" before "large"; a name with none of
    the three as a whole part makes the constructor raise [ValueError]
    right after the tokenizer, with nothing logged and nothing loaded. *)
Theorem size_detection (h : Hparams) (w : world) :
  let parts := split_on "-" "" (model_name h) in
  (forall sz, detect_size (model_name h) = inr sz ->
              In sz sizes /\ str_in sz parts = true)
  /\ (str_in "small" parts = true -> detect_size (model_name h) = inr "small")
  /\ (forall tok,
        tokenizer_of h = inr tok ->
        (forall sz, In sz sizes -> str_in sz parts = false) ->
        init h w = Raised (ValueError size_message) w).
Proof.
  intros parts. unfold detect_size. fold parts. split; [|split].
  - intros sz.
    destruct (str_in "small" parts) eqn:E1; [intros [= <-]; simpl; auto|].
    destruct (str_in "base" parts) eqn:E2; [intros [= <-]; simpl; auto|].
    destruct (str_in "large" parts) eqn:E3; [intros [= <-]; simpl; auto 6|].
    discriminate.
  - intros ->. reflexivity.
  - intros tok Ht Hn.
    unfold init, T5ASSIN_init, bind. fold tokenizer_of. rewrite Ht. simpl.
    unfold detect_size. fold parts.
    rewrite (Hn "small"), (Hn "base"), (Hn "large") by (simpl; auto).
    reflexivity.
Qed.

(** X8: [get_ptt5] returns only when [checkpoint_path] is set and the two
    patterns match exactly one checkpoint and exactly one configuration;
    it then returns what these two files hold and logs their paths.  When
    either pattern matches none or several files it raises the assertion
    error, before logging or loading anything. *)
Theorem get_ptt5_one_of_each (h : Hparams) (sz : string) (w : world) :
  (forall r w',
      ptt5 h sz w = Returned r w' ->
      exists dir ckpt cfgp,
        checkpoint_path h = Some dir
        /\ glob (os_path_join dir (model_name h ++ "*")) = [ckpt]
        /\ glob (os_path_join CONFIG_PATH ("ptt5*" ++ sz ++ "*")) = [cfgp]
        /\ PretrainedConfig_from_json_file cfgp = inr (fst r)
        /\ torch_load ckpt = inr (snd r)
        /\ logged w'
           = (logged w ++ [(INFO, ("Loading initial ckpt from " ++ ckpt)%string);
                           (INFO, ("Loading config from " ++ cfgp)%string)])%list)
  /\ (forall dir,
        checkpoint_path h = Some dir ->
        List.length (glob (os_path_join dir (model_name h ++ "*"))) <> 1
        \/ List.length (glob (os_path_join CONFIG_PATH ("ptt5*" ++ sz ++ "*"))) <> 1 ->
        exists msg, ptt5 h sz w = Raised (AssertionError (Some msg)) w).
Proof.
  unfold ptt5, get_ptt5, bind. split.
  - intros r w'. destruct (checkpoint_path h) as [dir|]; [|discriminate].
    cbv beta iota zeta delta [ret].
    remember (glob (os_path_join dir (model_name h ++ "*"))) as ckpts eqn:Eck.
    remember (glob (os_path_join CONFIG_PATH ("ptt5*" ++ sz ++ "*"))) as cfgs eqn:Ecf.
    unfold assert_.
    destruct ckpts as [|ckpt [|? ?]]; simpl; try discriminate.
    destruct cfgs as [|cfgp [|? ?]]; simpl; try discriminate.
    destruct (PretrainedConfig_from_json_file cfgp) as [e|c] eqn:Ec;
      simpl; [discriminate|].
    destruct (torch_load ckpt) as [e|sd] eqn:Es; simpl; [discriminate|].
    intros [= <- <-]. exists dir, ckpt, cfgp. simpl.
    rewrite <- app_assoc. repeat split; auto.
  - intros dir -> H.
    cbv beta iota zeta delta [ret].
    remember (glob (os_path_join dir (model_name h ++ "*"))) as ckpts eqn:Eck.
    remember (glob (os_path_join CONFIG_PATH ("ptt5*" ++ sz ++ "*"))) as cfgs eqn:Ecf.
    unfold assert_.
    destruct (Nat.eqb_spec (List.length ckpts) 1) as [E1|E1];
      destruct (Nat.eqb_spec (List.length cfgs) 1) as [E2|E2]; simpl; eauto.
    destruct H; contradiction.
Qed.

(** X9: for a PTT5 model (a [model_name] that starts with "pt") without
    [checkpoint_path] the constructor never returns.  It raises what the
    tokenizer raised when the tokenizer does not load, [ValueError] when no
    size is found in [model_name], both with the state as it was; and once
    the tokenizer is loaded and the size detected it raises [TypeError] as
    soon as it forms the checkpoint pattern: after the first log record,
    before it looks at the disk or the mode. *)
Theorem ptt5_without_checkpoint_path (h : Hparams) (sz : string) (w : world) :
  substring 0 2 (model_name h) = "pt" ->
  checkpoint_path h = None ->
  let w1 := mk_world (pearson_calculator w)
              (logged w ++ [(INFO, "Initializing from PTT5 checkpoint...")]) in
  backbone_of h sz w = Raised (TypeError path_message) w1
  /\ (forall tok,
        tokenizer_of h = inr tok -> detect_size (model_name h) = inr sz ->
        init h w = Raised (TypeError path_message) w1)
  /\ (forall e, tokenizer_of h = inl e -> init h w = Raised e w)
  /\ (forall tok e,
        tokenizer_of h = inr tok -> detect_size (model_name h) = inl e ->
        e = ValueError size_message /\ init h w = Raised e w)
  /\ raised (init h w) = true.
Proof.
  intros Hp Hc w1.
  assert (E : forall s, backbone_of h s w = Raised (TypeError path_message) w1).
  { intro s. unfold backbone_of, load_backbone, get_ptt5, bind.
    rewrite Hp, Hc. reflexivity. }
  assert (I : forall tok s,
             tokenizer_of h = inr tok -> detect_size (model_name h) = inr s ->
             init h w = Raised (TypeError path_message) w1).
  { intros tok s Ht Hs. unfold init, T5ASSIN_init, bind.
    fold tokenizer_of. rewrite Ht. simpl. rewrite Hs. simpl.
    fold backbone_of. rewrite E. reflexivity. }
  assert (T : forall e, tokenizer_of h = inl e -> init h w = Raised e w).
  { intros e Ht. unfold init, T5ASSIN_init, bind.
    fold tokenizer_of. rewrite Ht. reflexivity. }
  assert (S : forall tok e,
             tokenizer_of h = inr tok -> detect_size (model_name h) = inl e ->
             e = ValueError size_message /\ init h w = Raised e w).
  { intros tok e Ht Hs. split.
    - unfold detect_size in Hs.
      destruct (str_in "small" _); [discriminate|].
      destruct (str_in "base" _); [discriminate|].
      destruct (str_in "large" _); [discriminate|].
      now injection Hs as <-.
    - unfold init, T5ASSIN_init, bind.
      fold tokenizer_of. rewrite Ht. simpl. rewrite Hs. reflexivity. }
  split; [apply E|]. split; [intros tok; apply I|].
  split; [exact T|]. split; [exact S|].
  destruct (tokenizer_of h) as [e|tok] eqn:Ht.
  - now rewrite (T e eq_refl).
  - destruct (detect_size (model_name h)) as [e|s] eqn:Hs.
    + now rewrite (proj2 (S tok e eq_refl eq_refl)).
    + now rewrite (I tok s eq_refl eq_refl).
Qed.

End InitMore.

(** *** The constructor on the installation, again *)


Lemma size_detection_witness :
  detect_size "t5-base-small" = inr "small"
  /\ installed_init unsized (fresh []) = Raised (ValueError size_message) (fresh []).
Proof.
  split.
  - apply (proj1 (proj2 (@size_detection unit (inr tt) (fun _ => inr tt) disk unit
                           read_config (fun _ => inr tt) hub
                           (mk_Hparams "t5-small" "t5-base-small" "gen" 128 1 None)
                           (fresh [])))).
    reflexivity.
  - apply (proj2 (proj2 (@size_detection unit (inr tt) (fun _ => inr tt) disk unit
                           read_config (fun _ => inr tt) hub unsized (fresh [])))
             tt).
    + reflexivity.
    + intros sz [<- | [<- | [<- | []]]]; reflexivity.
Defined.

Lemma get_ptt5_one_of_each_witness :
  (exists dir ckpt cfgp,
      checkpoint_path (ptt5_base "gen" 1) = Some dir
      /\ disk (os_path_join dir "ptt5-base-portuguese-vocab*") = [ckpt]
      /\ disk (os_path_join CONFIG_PATH "ptt5*base*") = [cfgp]
      /\ read_config cfgp = inr (mk_PretrainedConfig 768))
  /\ (exists msg,
         installed_get_ptt5 (ptt5_base "gen" 1) "large" (fresh [])
         = Raised (AssertionError (Some msg)) (fresh [])).
Proof.
  split.
  - destruct (proj1 (@get_ptt5_one_of_each disk unit read_config (fun _ => inr tt)
                       (ptt5_base "gen" 1) "base" (fresh []))
                (mk_PretrainedConfig 768, tt)
                (fresh [(INFO, "Loading initial ckpt from ckpts/ptt5-base-portuguese-vocab.pth");
                        (INFO, "Loading config from T5_configs_json/ptt5-base-portuguese-vocab-config.json")]))
      as (dir & ckpt & cfgp & A & B & C & D & _).
    + vm_compute. reflexivity.
    + exists dir, ckpt, cfgp. auto.
  - apply (proj2 (@get_ptt5_one_of_each disk unit read_config (fun _ => inr tt)
                    (ptt5_base "gen" 1) "large" (fresh [])) "ckpts").
    + reflexivity.
    + right. vm_compute. discriminate.
Defined.

Lemma ptt5_without_checkpoint_path_witness :
  installed_init ptt5_no_path (fresh [])
  = Raised (TypeError path_message)
      (fresh [(INFO, "Initializing from PTT5 checkpoint...")]).
Proof.
  apply (proj1 (proj2 (@ptt5_without_checkpoint_path unit (inr tt) (fun _ => inr tt)
                         disk unit read_config (fun _ => inr tt) hub
                         ptt5_no_path "base" (fresh []) eq_refl eq_refl)) tt);
    reflexivity.
Defined.

(** ** The validation hooks in the other modes *)

Lemma regression_mode_tests (a : string) :
  regression_mode a = true ->
  String.eqb a "gen" = false /\ String.eqb a "categoric_gen" = false
  /\ String.eqb a "categoric" = false.
Proof.
  unfold regression_mode, str_in. simpl.
  destruct (String.eqb a "gen"), (String.eqb a "categoric_gen"),
    (String.eqb a "categoric"); simpl; intros H; try discriminate H; auto.
Qed.

Lemma squeeze_last_column (t : ndarray) (n : nat) :
  shape t = [n; 1] -> squeeze_last t = mk_ndarray [n] (data t).
Proof. intros H. unfold squeeze_last. rewrite H. reflexivity. Qed.

Section HookFacts.

Variable pearsonr : ndarray -> ndarray -> exn + (float * float).
Variable Tokenizer : Type.
Variable tokenizer_decode : Tokenizer -> list Z -> string.
Variable loss_fn : Loss -> ndarray -> ndarray -> exn + float.
Variable argmax_accuracy : ndarray -> ndarray -> exn + float.
Variable tensor_mean : list float -> float.
Variable self : T5ASSIN Tokenizer.

Let step (net : Network) :=
  validation_step tokenizer_decode net loss_fn argmax_accuracy tensor_mean self.
Let steps (net : Network) :=
  validation_steps tokenizer_decode net loss_fn argmax_accuracy tensor_mean self.
Let epoch (net : Network) :=
  validation_epoch pearsonr tokenizer_decode net loss_fn argmax_accuracy
    tensor_mean self.
Let epoch_end := validation_epoch_end pearsonr tensor_mean self.

(** The last branch of [validation_step], up to the call of the
    accumulator. *)
Lemma regression_step_unfolds (net : Network) (batch : Batch.t) (batch_idx : nat)
  (t : ndarray) (l : float) (w : world) :
  regression_mode (architecture (hparams self)) = true ->
  forward net self false batch = inr (Tensor t) ->
  loss_fn (loss self) (squeeze_last t) (Batch.original_number batch) = inr l ->
  step net batch batch_idx w
  = bind (PearsonCalculator_call (squeeze_last t) (Batch.original_number batch))
      (fun _ => ret [("loss", l)]) w.
Proof.
  intros Hm Hf Hl. destruct (regression_mode_tests _ Hm) as (M1 & M2 & M3).
  unfold step, validation_step. rewrite M1, M2, M3.
  unfold bind at 1. rewrite Hf. simpl.
  unfold bind at 1. simpl.
  unfold bind at 1. rewrite Hl. reflexivity.
Qed.

(** X10: in a regression mode (any mode but "gen", "categoric_gen" and
    "categoric") a validation step whose prediction, once its last axis of
    size one is squeezed, and whose targets are one-dimensional returns its
    loss and has appended both to the accumulator; when either is not
    one-dimensional the step raises the assertion error and the accumulator
    is as before.  A prediction of shape [n, 1] squeezes to length [n], for
    every [n]. *)
Theorem regression_step_feeds_accumulator (net : Network) (batch : Batch.t)
  (batch_idx : nat) (t : ndarray) (l : float) (w : world) :
  regression_mode (architecture (hparams self)) = true ->
  flat (pearson_calculator w) ->
  forward net self false batch = inr (Tensor t) ->
  loss_fn (loss self) (squeeze_last t) (Batch.original_number batch) = inr l ->
  (ndim (squeeze_last t) = 1 /\ ndim (Batch.original_number batch) = 1 ->
   step net batch batch_idx w
   = Returned [("loss", l)]
       (mk_world (appended (pearson_calculator w) (squeeze_last t)
                    (Batch.original_number batch)) (logged w)))
  /\ (ndim (squeeze_last t) <> 1 \/ ndim (Batch.original_number batch) <> 1 ->
      step net batch batch_idx w = Raised (AssertionError None) w)
  /\ (forall n, shape t = [n; 1] -> squeeze_last t = mk_ndarray [n] (data t)).
Proof.
  intros Hm F Hf Hl.
  rewrite (@regression_step_unfolds net batch batch_idx t l w Hm Hf Hl).
  unfold bind.
  split; [|split].
  - intros [H1 H2]. rewrite call_appends by assumption. reflexivity.
  - intros H. rewrite call_rejects by assumption. reflexivity.
  - intros n. apply squeeze_last_column.
Qed.



(** X12: in the modes "categoric" and "categoric_gen" a validation epoch
    never touches the accumulator or the log, whatever the collaborators do,
    and its report has an accuracy and no [val_pearson]. *)
Theorem categoric_epochs_leave_accumulator :
  str_in (architecture (hparams self)) ["categoric"; "categoric_gen"] = true ->
  (forall net batches, keeps_state (epoch net batches))
  /\ (forall net batches w o w',
        epoch net batches w = Returned o w' ->
        dict_get (log o) "val_pearson" = inl (KeyError "val_pearson")
        /\ exists acc, dict_get (scalars o) "val_acc" = inr acc).
Proof.
  intros Hm.
  assert (Hstep : forall net b i, keeps_state (step net b i)).
  { intros net b i. unfold step, validation_step.
    unfold str_in in Hm. simpl in Hm.
    destruct (String.eqb (architecture (hparams self)) "gen") eqn:Eg.
    { apply String.eqb_eq in Eg. rewrite Eg in Hm. discriminate Hm. }
    destruct (String.eqb (architecture (hparams self)) "categoric_gen");
      [|destruct (String.eqb (architecture (hparams self)) "categoric");
        [|discriminate Hm]];
      repeat (apply keeps_bind; [apply keeps_lift | intros ?]); apply keeps_ret. }
  assert (Hsteps : forall net bs i, keeps_state (steps net bs i)).
  { intros net bs. induction bs as [|b bs IH]; intros i; simpl.
    - apply keeps_ret.
    - apply keeps_bind; [apply Hstep|]. intros o.
      apply keeps_bind; [apply IH|]. intros os. apply keeps_ret. }
  unfold str_in in Hm. simpl in Hm. split.
  - intros net batches. unfold epoch, validation_epoch.
    apply keeps_bind; [apply Hsteps|]. intros outputs.
    unfold validation_epoch_end.
    destruct (String.eqb (architecture (hparams self)) "categoric").
    + apply keeps_bind; [apply stack_mean_keeps_state|]. intros l.
      apply keeps_bind; [apply stack_mean_keeps_state|]. intros a.
      apply keeps_ret.
    + destruct (String.eqb (architecture (hparams self)) "categoric_gen");
        [|discriminate Hm].
      apply keeps_bind; [apply stack_mean_keeps_state|]. intros a.
      apply keeps_ret.
  - intros net batches w o w'. unfold epoch, validation_epoch, bind.
    destruct (validation_steps _ _ _ _ _ _ _ _ _) as [outputs w1|e w1];
      [|discriminate].
    unfold validation_epoch_end, bind.
    destruct (String.eqb (architecture (hparams self)) "categoric").
    + destruct (stack_mean tensor_mean "loss" outputs w1) as [l w2|e w2];
        [|discriminate].
      destruct (stack_mean tensor_mean "acc" outputs w2) as [a w3|e w3];
        [|discriminate].
      intros [= <- <-]. split; [reflexivity | eexists; reflexivity].
    + destruct (String.eqb (architecture (hparams self)) "categoric_gen");
        [|discriminate Hm].
      destruct (stack_mean tensor_mean "acc" outputs w1) as [a w2|e w2];
        [|discriminate].
      intros [= <- <-]. split; [reflexivity | eexists; reflexivity].
Qed.

(** X13: with no step output (no validation batch) the epoch-end hook
    raises [RuntimeError] in every mode, with the state as it was: in the
    regression modes the coefficient is not computed, nothing is logged and
    the accumulator is not cleared. *)
Theorem empty_epoch_raises (w : world) :
  epoch_end [] w = Raised empty_stack w
  /\ forall net, epoch net [] w = Raised empty_stack w.
Proof.
  assert (E : epoch_end [] w = Raised empty_stack w).
  { unfold epoch_end, validation_epoch_end.
    destruct (String.eqb (architecture (hparams self)) "categoric");
      [reflexivity|].
    destruct (String.eqb (architecture (hparams self)) "categoric_gen");
      reflexivity. }
  split; [exact E|]. intros net. exact E.
Qed.

End HookFacts.

(** *** Runs of the hooks *)

Lemma regression_step_feeds_accumulator_witness :
  validation_step vocabulary column_net mse_loss no_accuracy mean_of
    similarity_model batch_23 0 (fresh [])
  = Returned [("loss", scored_loss scored_a)]
      (mk_world (appended PearsonCalculator_init (scored_y_hat scored_a)
                   (scored_target scored_a)) []).
Proof.
  apply (proj1 (@regression_step_feeds_accumulator unit vocabulary mse_loss
                  no_accuracy mean_of similarity_model column_net batch_23 0
                  (mk_ndarray [2; 1] [lit "2.0"; lit "3.0"])
                  (scored_loss scored_a) (fresh [])
                  eq_refl flat_init eq_refl eq_refl)).
  split; reflexivity.
Defined.


Lemma categoric_epochs_leave_accumulator_witness :
  exists o w',
    validation_epoch pearsonr_textbook vocabulary column_net mse_loss
      full_accuracy mean_of categoric_model [batch_23] (fresh []) = Returned o w'
    /\ w' = fresh []
    /\ dict_get (log o) "val_pearson" = inl (KeyError "val_pearson")
    /\ exists acc, dict_get (scalars o) "val_acc" = inr acc.
Proof.
  pose proof (@categoric_epochs_leave_accumulator pearsonr_textbook unit vocabulary
                mse_loss full_accuracy mean_of categoric_model eq_refl) as [K R].
  specialize (K column_net [batch_23] (fresh [])).
  specialize (R column_net [batch_23] (fresh [])).
  destruct (validation_epoch pearsonr_textbook vocabulary column_net mse_loss
              full_accuracy mean_of categoric_model [batch_23] (fresh []))
    as [o w'|e w'] eqn:E.
  - exists o, w'. split; [reflexivity|]. split; [exact K|].
    exact (R o w' eq_refl).
  - exfalso. vm_compute in E. discriminate E.
Defined.

(** ** The callbacks and the data loaders *)

Lemma known_modes_cases (arch : string) :
  str_in arch known_modes = true ->
  arch = "mlp" \/ arch = "categoric" \/ arch = "gen" \/ arch = "categoric_gen".
Proof.
  unfold str_in, known_modes. cbn [existsb].
  rewrite !orb_true_iff, !String.eqb_eq. intros [H | [H | [H | [H | H]]]];
    [tauto | tauto | tauto | tauto | discriminate H].
Qed.

(** Among the four modes of the dispatch, and among the modes whose name does
    not hold "categoric", the test of the script and of the data loaders
    singles out the two modes trained with the cross entropy. *)
Lemma categoric_test_agrees (arch : string) :
  str_in arch known_modes = true \/ str_contains "categoric" arch = false ->
  str_contains "categoric" arch = str_in arch ["categoric"; "categoric_gen"].
Proof.
  intros [K | N].
  - destruct (known_modes_cases _ K) as [-> | [-> | [-> | ->]]]; reflexivity.
  - rewrite N. symmetry. unfold str_in. simpl.
    destruct (String.eqb arch "categoric") eqn:E1.
    + apply String.eqb_eq in E1. subst arch. discriminate N.
    + destruct (String.eqb arch "categoric_gen") eqn:E2; [|reflexivity].
      apply String.eqb_eq in E2. subst arch. discriminate N.
Qed.

Lemma select_callbacks_returned (isdir : string -> bool) (p : TrainerParams)
  (arch log_path model_path model_folder : string) (cb : Callbacks) (w w' : world) :
  select_callbacks isdir p arch log_path model_path model_folder w
  = Returned (Some cb) w' ->
  monitor cb = (if str_contains "categoric" arch then "val_acc" else "val_loss")
  /\ mode cb = (if str_contains "categoric" arch then "max" else "min")
  /\ cb_prefix cb = name p /\ cb_patience cb = patience p
  /\ isdir log_path && isdir model_path && isdir model_folder = true
  /\ pearson_calculator w' = pearson_calculator w.
Proof.
  unfold select_callbacks.
  destruct (debug p && negb (feq (overfit_pct p) zero)).
  - unfold bind, logging_warning, logging, ret. discriminate.
  - destruct (isdir log_path && isdir model_path && isdir model_folder) eqn:D;
      destruct (str_contains "categoric" arch);
      unfold bind, logging_info, logging, assert_, ret, raise;
      try discriminate;
      intros [= <- <-]; repeat split; reflexivity.
Qed.

(** X14.  The metric the checkpoint and the early stopping watch is one the
    validation epoch reports.  For a mode of the dispatch table, or any mode
    whose name does not hold "categoric": when the script builds its
    callbacks, they monitor "val_acc" to maximise or "val_loss" to minimise,
    and every dictionary [validation_epoch_end] returns holds the monitored
    key among its scalar entries. *)
Theorem monitored_metric_is_reported
  (isdir : string -> bool) (p : TrainerParams)
  (log_path model_path model_folder : string) (cb : Callbacks) (w0 w0' : world)
  (pearsonr : ndarray -> ndarray -> exn + float * float)
  (Tokenizer : Type) (tensor_mean : list float -> float)
  (self : T5ASSIN Tokenizer) :
  str_in (architecture (hparams self)) known_modes = true
  \/ str_contains "categoric" (architecture (hparams self)) = false ->
  select_callbacks isdir p (architecture (hparams self)) log_path model_path
    model_folder w0 = Returned (Some cb) w0' ->
  (monitor cb = "val_acc" /\ mode cb = "max"
   \/ monitor cb = "val_loss" /\ mode cb = "min")
  /\ forall outputs w o w',
       validation_epoch_end pearsonr tensor_mean self outputs w = Returned o w' ->
       exists v, dict_get (scalars o) (monitor cb) = inr v.
Proof.
  intros Hm Hs.
  destruct (select_callbacks_returned _ _ _ _ _ _ _ Hs) as (Mo & Md & _).
  pose proof (categoric_test_agrees _ Hm) as Ha.
  rewrite Ha in Mo, Md. clear Hs Hm Ha.
  split.
  - destruct (str_in _ _); [left | right]; split; assumption.
  - intros outputs w o w'. unfold validation_epoch_end.
    unfold str_in in Mo. simpl in Mo. rewrite orb_false_r in Mo.
    destruct (String.eqb (architecture (hparams self)) "categoric") eqn:E1.
    + simpl in Mo. rewrite Mo. unfold bind.
      destruct (stack_mean tensor_mean "loss" outputs w) as [l w1|e w1];
        [|discriminate].
      destruct (stack_mean tensor_mean "acc" outputs w1) as [a w2|e w2];
        [|discriminate].
      unfold ret. intros [= <- <-]. exists a. reflexivity.
    + destruct (String.eqb (architecture (hparams self)) "categoric_gen") eqn:E2.
      * simpl in Mo. rewrite Mo. unfold bind.
        destruct (stack_mean tensor_mean "acc" outputs w) as [a w1|e w1];
          [|discriminate].
        unfold ret. intros [= <- <-]. exists a. reflexivity.
      * simpl in Mo. rewrite Mo. unfold bind.
        destruct (stack_mean tensor_mean "loss" outputs w) as [l w1|e w1];
          [|discriminate].
        destruct (calculate_pearson pearsonr w1) as [r w2|e w2]; [|discriminate].
        unfold ret. intros [= <- <-]. exists l. reflexivity.
Qed.

Lemma monitored_metric_is_reported_witness :
  exists cb w0',
    select_callbacks all_dirs default_params "categoric" "logs" "models"
      "models/run" (fresh []) = Returned (Some cb) w0'
    /\ monitor cb = "val_acc"
    /\ forall outputs w o w',
         validation_epoch_end pearsonr_textbook mean_of categoric_model outputs w
         = Returned o w' ->
         exists v, dict_get (scalars o) (monitor cb) = inr v.
Proof.
  do 2 eexists. split; [vm_compute; reflexivity|]. split; [reflexivity|].
  refine (proj2 (@monitored_metric_is_reported all_dirs default_params "logs"
                   "models" "models/run" _ (fresh []) _ pearsonr_textbook unit
                   mean_of categoric_model (or_introl eq_refl) _)).
  vm_compute. reflexivity.
Defined.

(** Outside the dispatch table the two tests part: the mode "categorical"
    is served by the default branch, which reports "val_loss" only, while the
    script monitors "val_acc". *)
Lemma categorical_monitors_a_missing_metric :
  exists cb w0',
    select_callbacks all_dirs default_params
      (architecture (hparams categorical_model)) "logs" "models" "models/run"
      (fresh []) = Returned (Some cb) w0'
    /\ monitor cb = "val_acc"
    /\ forall outputs w o w',
         validation_epoch_end pearsonr_textbook mean_of categorical_model outputs w
         = Returned o w' ->
         dict_get (scalars o) (monitor cb) = inl (KeyError "val_acc").
Proof.
  do 2 eexists. split; [vm_compute; reflexivity|]. split; [reflexivity|].
  intros outputs w o w'. unfold validation_epoch_end.
  change (String.eqb (architecture (hparams categorical_model)) "categoric")
    with false.
  change (String.eqb (architecture (hparams categorical_model)) "categoric_gen")
    with false.
  cbv beta iota. unfold bind.
  destruct (stack_mean mean_of "loss" outputs w) as [l w1|e w1]; [|discriminate].
  destruct (calculate_pearson pearsonr_textbook w1) as [r w2|e w2]; [|discriminate].
  unfold ret. intros [= <- <-]. reflexivity.
Qed.

Section DataFacts.

Variable Tokenizer : Type.
Variable get_custom_vocab : exn + Tokenizer.
Variable T5Tokenizer_from_pretrained : string -> exn + Tokenizer.
Variable glob : string -> list string.
Variable StateDict : Type.
Variable PretrainedConfig_from_json_file : string -> exn + PretrainedConfig.
Variable torch_load : string -> exn + StateDict.
Variable from_pretrained :
  T5Class -> string + PretrainedConfig * StateDict -> exn + PretrainedConfig.

(** X15.  The data loaders of a model built by the constructor, in a mode of
    the dispatch table or one whose name does not hold "categoric": both ask
    for the categoric targets exactly when the model was given the cross
    entropy as its loss; they are built with the same version, sequence
    length, vocabulary and batch size; the validation loader never shuffles
    and leaves the state alone; the training loader shuffles unless
    [overfit_pct] is positive, in which case it adds one record to the log
    and leaves the accumulator alone. *)
Theorem dataloaders_follow_the_loss (h : Hparams) (p : TrainerParams)
  (w0 w0' : world) (self : T5ASSIN Tokenizer) (w : world) :
  T5ASSIN_init get_custom_vocab T5Tokenizer_from_pretrained glob
    PretrainedConfig_from_json_file torch_load from_pretrained h w0
  = Returned self w0' ->
  str_in (architecture h) known_modes = true
  \/ str_contains "categoric" (architecture h) = false ->
  exists tl vl w',
    train_dataloader p self w = Returned tl w'
    /\ val_dataloader p self w = Returned vl w
    /\ ds_categoric tl = is_cross_entropy (loss self)
    /\ ds_categoric vl = is_cross_entropy (loss self)
    /\ dl_shuffle vl = false
    /\ dl_shuffle tl = negb (fgt (overfit_pct p) zero)
    /\ pearson_calculator w' = pearson_calculator w
    /\ logged w'
       = (logged w ++ (if dl_shuffle tl then []
                       else [info_record "Disabling train shuffle due to overfit_pct."]))%list
    /\ (ds_mode tl, ds_mode vl) = ("train", "validation")
    /\ (ds_version tl, ds_seq_len tl, ds_vocab_name tl, dl_batch_size tl)
       = (ds_version vl, ds_seq_len vl, ds_vocab_name vl, dl_batch_size vl).
Proof.
  intros Hi Hm.
  destruct (init_returned _ _ _ _ _ _ _ _ Hi)
    as (tok & sz & cfg & w1 & b & l & _ & _ & _ & _ & _ & -> & _).
  pose proof (categoric_test_agrees _ Hm) as Ha.
  assert (Hl : str_contains "categoric" (architecture h)
               = is_cross_entropy (loss_of_mode (architecture h))).
  { rewrite Ha. unfold loss_of_mode.
    now destruct (str_in (architecture h) ["categoric"; "categoric_gen"]). }
  unfold train_dataloader, val_dataloader. cbn [hparams loss].
  destruct (fgt (overfit_pct p) zero) eqn:O.
  - do 3 eexists. unfold bind, logging_info, logging, ret.
    repeat split; try reflexivity; try exact Hl.
  - do 3 eexists. unfold bind, ret.
    repeat split; try reflexivity; try exact Hl.
    cbn [dl_shuffle negb]. now rewrite app_nil_r.
Qed.

End DataFacts.

Lemma dataloaders_follow_the_loss_witness :
  exists tl vl w',
    train_dataloader overfit_params mlp_model (fresh []) = Returned tl w'
    /\ val_dataloader overfit_params mlp_model (fresh []) = Returned vl (fresh [])
    /\ ds_categoric tl = false /\ dl_shuffle tl = false
    /\ logged w' = [info_record "Disabling train shuffle due to overfit_pct."].
Proof.
  destruct (@dataloaders_follow_the_loss unit (inr tt) (fun _ => inr tt) disk unit
              read_config (fun _ => inr tt) hub
              (t5_small "mlp" 1) overfit_params (fresh [])
              (fresh (t5_log ++ [done_record])) mlp_model (fresh []))
    as (tl & vl & w' & A & B & C & _ & _ & D & _ & E & _).
  - vm_compute. reflexivity.
  - left. reflexivity.
  - exists tl, vl, w'.
    assert (S : dl_shuffle tl = false) by (rewrite D; vm_compute; reflexivity).
    split; [exact A|]. split; [exact B|]. split; [exact C|]. split; [exact S|].
    rewrite E, S. reflexivity.
Defined.

(** ** The training hooks *)

Section TrainFacts.

Variable Tokenizer : Type.
Variable self : T5ASSIN Tokenizer.

Lemma training_step_keeps_state (net : Network)
  (loss_fn : Loss -> ndarray -> ndarray -> exn + float)
  (batch : Batch.t) (batch_idx : nat) :
  keeps_state (training_step net loss_fn self batch batch_idx).
Proof.
  unfold training_step.
  destruct (str_in (architecture (hparams self)) ["gen"; "categoric_gen"]).
  - apply keeps_bind; [apply keeps_lift | intro; apply keeps_ret].
  - apply keeps_bind; [apply keeps_lift | intro].
    apply keeps_bind; [apply keeps_lift | intro].
    apply keeps_bind; [apply keeps_lift | intro; apply keeps_ret].
Qed.

Lemma training_steps_keep_state (net : Network)
  (loss_fn : Loss -> ndarray -> ndarray -> exn + float)
  (batches : list Batch.t) (batch_idx : nat) :
  keeps_state (training_steps net loss_fn self batches batch_idx).
Proof.
  revert batch_idx. induction batches as [|b rest IH]; intro batch_idx; simpl.
  - apply keeps_ret.
  - apply keeps_bind; [apply training_step_keeps_state | intro].
    apply keeps_bind; [apply IH | intro; apply keeps_ret].
Qed.

Lemma training_epoch_end_keeps_state (stacked_mean : list Output -> exn + float)
  (outputs : list step_dict) :
  keeps_state (training_epoch_end stacked_mean outputs).
Proof.
  unfold training_epoch_end.
  apply keeps_bind.
  - apply keeps_mapM. intro. apply keeps_lift.
  - intros [|v vals].
    + apply keeps_bind; [|intro; apply keeps_ret]. intro w. reflexivity.
    + apply keeps_bind; [apply keeps_lift | intro; apply keeps_ret].
Qed.

(** X16.  Training never touches the state of the model: whatever the
    network, the loss and the batches, and whether it returns or raises, a
    training epoch (the step hook on every batch, then the epoch-end hook)
    leaves the accumulator and the log as it found them.  In the generative
    modes the step hook does not consult the loss of the model: it returns,
    under "loss", what the forward pass gave. *)
Theorem training_leaves_the_state (net : Network)
  (loss_fn : Loss -> ndarray -> ndarray -> exn + float)
  (stacked_mean : list Output -> exn + float) :
  (forall batches, keeps_state (training_epoch net loss_fn stacked_mean self batches))
  /\ (str_in (architecture (hparams self)) ["gen"; "categoric_gen"] = true ->
      forall batch batch_idx w,
        (forall out, forward net self true batch = inr out ->
           training_step net loss_fn self batch batch_idx w
           = Returned [("loss", out)] w)
        /\ (forall e, forward net self true batch = inl e ->
              training_step net loss_fn self batch batch_idx w = Raised e w)).
Proof.
  split.
  - intro batches. unfold training_epoch.
    apply keeps_bind; [apply training_steps_keep_state | intro].
    apply training_epoch_end_keeps_state.
  - intros Hg batch batch_idx w. unfold training_step. rewrite Hg.
    split; intros r Hf; unfold bind; rewrite Hf; reflexivity.
Qed.

(** X17.  The loss of a training epoch in the modes with a head: when every
    batch goes through the forward pass and the loss, the epoch reports under
    "train_loss" the mean of the stacked losses of its batches, in order. *)
Theorem training_epoch_reports_mean (net : Network)
  (loss_fn : Loss -> ndarray -> ndarray -> exn + float)
  (stacked_mean : list Output -> exn + float)
  (ss : list Scored) (m : float) (w : world) :
  str_in (architecture (hparams self)) ["gen"; "categoric_gen"] = false ->
  Forall (fun s => exists t,
            forward net self true (scored_batch s) = inr (Tensor t)
            /\ loss_fn (loss self) (squeeze_last t)
                 (Batch.original_number (scored_batch s)) = inr (scored_loss s)) ss ->
  ss <> [] ->
  stacked_mean (map (fun s => Tensor (scalar_tensor (scored_loss s))) ss) = inr m ->
  training_epoch net loss_fn stacked_mean self (map scored_batch ss) w
  = Returned (mk_EpochEnd [("train_loss", m)] [("train_loss", m)]
                [("train_loss", m)]) w.
Proof.
  intros Hg Hs Hne Hm. unfold training_epoch.
  assert (St : forall i, training_steps net loss_fn self (map scored_batch ss) i w
                 = Returned (map (fun s => [("loss", Tensor (scalar_tensor (scored_loss s)))]) ss) w).
  { clear Hne Hm. induction Hs as [|s rest (t & Hf & Hl) _ IH]; intro i.
    - reflexivity.
    - cbn [map training_steps]. unfold bind at 1.
      unfold training_step. rewrite Hg. unfold bind at 1. rewrite Hf.
      cbn [lift ret as_tensor]. unfold bind at 1. cbn [lift as_tensor ret].
      unfold bind at 1. rewrite Hl. cbn [lift ret].
      unfold bind at 1. rewrite IH. reflexivity. }
  unfold bind at 1. rewrite St. unfold training_epoch_end.
  assert (Mp : forall l : list Scored,
            mapM (fun x => lift (step_dict_get x "loss"))
              (map (fun s => [("loss", Tensor (scalar_tensor (scored_loss s)))]) l) w
            = Returned (map (fun s => Tensor (scalar_tensor (scored_loss s))) l) w).
  { induction l as [|s l IH]; [reflexivity|].
    cbn [map mapM]. unfold bind at 1. cbn [step_dict_get String.eqb]. 
    simpl lift. unfold ret at 1. unfold bind at 1. rewrite IH. reflexivity. }
  unfold bind at 1. rewrite Mp.
  destruct ss as [|s rest]; [contradiction Hne; reflexivity|].
  cbn [map] in *. unfold bind. rewrite Hm. reflexivity.
Qed.

End TrainFacts.

Lemma training_leaves_the_state_witness :
  training_step column_net failing_loss gen_model batch_a 0 (fresh [])
  = Returned [("loss", lm_value)] (fresh []).
Proof.
  apply (proj2 (@training_leaves_the_state unit gen_model column_net failing_loss
                  (fun _ => inl (RuntimeError "no mean")))
           eq_refl batch_a 0 (fresh [])).
  reflexivity.
Defined.

Lemma training_epoch_reports_mean_witness :
  training_epoch column_net mse_loss stacked_mean_of similarity_model
    [batch_23; batch_4] (fresh [])
  = Returned (let m := mean_of [scored_loss scored_a; scored_loss scored_b] in
              mk_EpochEnd [("train_loss", m)] [("train_loss", m)]
                [("train_loss", m)]) (fresh []).
Proof.
  apply (@training_epoch_reports_mean unit similarity_model column_net mse_loss
           stacked_mean_of [scored_a; scored_b]
           (mean_of [scored_loss scored_a; scored_loss scored_b]) (fresh [])).
  - reflexivity.
  - repeat constructor.
    + exists (mk_ndarray [2; 1] [lit "2.0"; lit "3.0"]).
      split; vm_compute; reflexivity.
    + exists (mk_ndarray [1; 1] [lit "4.0"]).
      split; vm_compute; reflexivity.
  - discriminate.
  - vm_compute. reflexivity.
Defined.

(** ** The hidden layer of the mode "mlp", again *)

Lemma nth_error_mapi_from {A B} (g : nat -> A -> B) (l : list A) (k i : nat) :
  nth_error (Mlp.mapi_from k g l) i = option_map (g (k + i)) (nth_error l i).
Proof.
  revert k i. induction l as [|a rest IH]; intros k i.
  - destruct i; reflexivity.
  - destruct i as [|i]; simpl.
    + now rewrite Nat.add_0_r.
    + rewrite IH. now rewrite Nat.add_succ_r.
Qed.

Lemma relu_dead (v : float) : fle v zero = true -> Mlp.relu v = zero.
Proof.
  destruct v as [s|s| |s m e]; try destruct s; try discriminate; reflexivity.
Qed.

Lemma relu_finite (v : float) :
  finite v = true -> exists s, Mlp.mul32 (Mlp.relu v) zero = S754_zero s.
Proof.
  destruct v as [s|s| |s m e]; try destruct s; try discriminate; intros _;
    eexists; reflexivity.
Qed.

(** X18.  What a silent hidden unit of [NONLinearInput] gives, whatever the
    weights and the features, for every sigmoid kernel that returns 0.5 at
    the two zeros: a unit whose pre-activation is not above zero (the
    rectifier cuts it), and, in training, a unit the dropout drops while its
    pre-activation is finite, comes out as exactly 3.0, the middle of the
    range of the squash and not its lower end. *)
Theorem silent_units_give_three (sigmoid : float -> float)
  (net : Mlp.Layer) (training : bool) (keep : nat -> bool) (x : list Z)
  (h : list float) :
  (forall s, sigmoid (S754_zero s) = half32) ->
  Mlp.NONLinearInput_forward sigmoid net training keep x = inr h ->
  exists pre,
    Mlp.Linear_forward net (map Mlp.to_float32 x) = inr pre
    /\ List.length h = List.length pre
    /\ forall i v,
         nth_error pre i = Some v ->
         fle v zero = true
         \/ (training = true /\ keep i = false /\ finite v = true) ->
         nth_error h i = Some three32.
Proof.
  intros Hz. unfold Mlp.NONLinearInput_forward.
  destruct (Mlp.Linear_forward net (map Mlp.to_float32 x)) as [e|pre];
    [discriminate|].
  intros [= <-]. exists pre. split; [reflexivity|].
  split; [now rewrite length_map, dropout_length, length_map|].
  intros i v Hv Hc.
  assert (S3 : forall s, Mlp.squash sigmoid (S754_zero s) = three32).
  { intro s. unfold Mlp.squash. rewrite Hz. reflexivity. }
  rewrite nth_error_map. unfold Mlp.dropout.
  destruct training.
  - rewrite nth_error_mapi_from, nth_error_map, Hv. cbn [option_map Nat.add].
    f_equal. destruct Hc as [Hd | (_ & Hk & Hf)].
    + rewrite (relu_dead _ Hd).
      destruct (keep i);
        [change (Mlp.mul32 zero (Mlp.to_float32 2)) with (S754_zero false)
        |change (Mlp.mul32 zero zero) with (S754_zero false)];
        apply S3.
    + rewrite Hk. destruct (relu_finite _ Hf) as [s ->]. apply S3.
  - rewrite nth_error_map, Hv. cbn [option_map]. f_equal.
    destruct Hc as [Hd | (Ht & _)]; [|discriminate Ht].
    rewrite (relu_dead _ Hd). apply S3.
Qed.

Lemma silent_units_give_three_witness :
  exists h,
    Mlp.NONLinearInput_forward coarse_sigmoid hidden_3_2 true first_dropped features
    = inr h
    /\ nth_error h 0 = Some three32 /\ nth_error h 1 = Some three32.
Proof.
  eexists. split; [reflexivity|].
  destruct (@silent_units_give_three coarse_sigmoid hidden_3_2 true first_dropped
              features _ (fun s => eq_refl) eq_refl) as (pre & P & _ & U).
  vm_compute in P. injection P as <-.
  split.
  - apply (U 0 _ eq_refl). right. repeat split; reflexivity.
  - apply (U 1 _ eq_refl). left. reflexivity.
Defined.

(** ** The words of a generated text *)

Lemma string_app_nil_r (s : string) : (s ++ "")%string = s.
Proof. induction s as [|c s IH]; simpl; [reflexivity | now rewrite IH]. Qed.

Lemma string_app_assoc (a b c : string) :
  ((a ++ b) ++ c)%string = (a ++ (b ++ c))%string.
Proof. induction a as [|x a IH]; simpl; [reflexivity | now rewrite IH]. Qed.

Lemma no_space_app (a b : string) :
  no_space (a ++ b) = no_space a && no_space b.
Proof.
  induction a as [|c a IH]; simpl; [reflexivity|].
  rewrite IH. now rewrite andb_assoc.
Qed.

Lemma token_snoc (w : string) (c : ascii) :
  token w -> isspace c = false -> token (w ++ String c "").
Proof.
  intros [Hn Hs] Hc. split.
  - destruct w; [contradiction Hn; reflexivity | discriminate].
  - rewrite no_space_app, Hs. simpl. now rewrite Hc.
Qed.

Lemma split_from_tokens (s : string) (word : option string) :
  match word with Some w => token w | None => True end ->
  Forall token (split_from word s).
Proof.
  revert word. induction s as [|c rest IH]; intros word Hw; simpl.
  - destruct word; [constructor; [exact Hw | constructor] | constructor].
  - destruct (isspace c) eqn:Hc.
    + destruct word; [constructor; [exact Hw|] |]; now apply IH.
    + destruct word; apply IH.
      * now apply token_snoc.
      * split; [discriminate | simpl; now rewrite Hc].
Qed.

Lemma concat_empty_cons (w : string) (l : list string) :
  String.concat "" (w :: l) = (w ++ String.concat "" l)%string.
Proof.
  destruct l; simpl; [now rewrite string_app_nil_r | reflexivity].
Qed.

Lemma split_from_characters (s : string) (word : option string) :
  String.concat "" (split_from word s)
  = ((match word with Some w => w | None => "" end) ++ strip_spaces s)%string.
Proof.
  revert word. induction s as [|c rest IH]; intro word.
  - destruct word; simpl; [now rewrite string_app_nil_r | reflexivity].
  - cbn [split_from strip_spaces]. destruct (isspace c).
    + destruct word.
      * rewrite concat_empty_cons, IH. reflexivity.
      * apply IH.
    + destruct word; rewrite IH.
      * now rewrite string_app_assoc.
      * reflexivity.
Qed.

(** X19.  The words the decoding loop tries, for every text: [split] returns
    words that are not empty and hold no space character, and put end to end
    they are the text with its space characters removed.  So [float] is never
    called on an empty word, and no character of the text is lost. *)
Theorem split_yields_the_words (s : string) :
  Forall token (split s) /\ String.concat "" (split s) = strip_spaces s.
Proof.
  split.
  - now apply split_from_tokens.
  - apply (split_from_characters s None).
Qed.

Lemma split_from_word (w : string) (acc rest : string) :
  no_space w = true ->
  split_from (Some acc) (w ++ rest) = split_from (Some (acc ++ w)%string) rest.
Proof.
  revert acc. induction w as [|c w IH]; intros acc Hw.
  - simpl. now rewrite string_app_nil_r.
  - simpl in Hw. apply andb_prop in Hw. destruct Hw as [Hc Hw].
    apply negb_true_iff in Hc. simpl. rewrite Hc, IH by exact Hw.
    now rewrite string_app_assoc.
Qed.

Lemma split_from_start (w rest : string) :
  token w -> split_from None (w ++ rest) = split_from (Some w) rest.
Proof.
  intros [Hn Hs]. destruct w as [|c w]; [contradiction Hn; reflexivity|].
  simpl in Hs. apply andb_prop in Hs. destruct Hs as [Hc Hs].
  apply negb_true_iff in Hc. simpl. rewrite Hc.
  now rewrite split_from_word.
Qed.

Lemma split_join (words : list string) :
  Forall token words -> split (String.concat " " words) = words.
Proof.
  unfold split. induction 1 as [|w rest Hw _ IH]; [reflexivity|].
  destruct rest as [|w2 rest].
  - simpl. rewrite <- (string_app_nil_r w) at 1.
    now rewrite split_from_start.
  - change (String.concat " " (w :: w2 :: rest))
      with (w ++ String " " (String.concat " " (w2 :: rest)))%string.
    rewrite split_from_start by exact Hw.
    cbn [split_from]. change (isspace " ") with true. cbv iota.
    now rewrite IH.
Qed.

(** X20.  Round trip of the decoding: on words joined by single spaces,
    [split] gives the words back, and the decoded value is the first of them
    that [float] accepts, clamped, or 0.0 when there is none. *)
Theorem decode_of_joined_words (words : list string) :
  Forall token words ->
  split (String.concat " " words) = words
  /\ decode (String.concat " " words) = inr (decoded_from words).
Proof.
  intro H. split; [now apply split_join|].
  rewrite decode_refines. unfold NumericDecoder_decode, decoded_from.
  now rewrite split_join.
Qed.

Lemma decode_of_joined_words_witness :
  split "about 7.9 points" = ["about"; "7.9"; "points"]
  /\ decode "about 7.9 points" = inr five.
Proof.
  destruct (@decode_of_joined_words ["about"; "7.9"; "points"]) as [A B].
  - repeat constructor; discriminate.
  - split; [exact A|]. refine (eq_trans B _). vm_compute. reflexivity.
Defined.

(** ** The callbacks of the script, again *)

(** X21.  The two callbacks are switched off only when [debug] and a
    non-zero [overfit_pct] come together, with one warning in the log.  In
    every other case, [debug] alone included, the script logs one INFO record
    and then requires the three directories: it raises when one is missing,
    and otherwise builds callbacks whose file pattern names the metric they
    monitor, with the name and the patience of the run.  The accumulator of
    the model is left alone throughout. *)
Theorem callbacks_off_only_with_both (isdir : string -> bool) (p : TrainerParams)
  (arch log_path model_path model_folder : string) (w : world) :
  (debug p = true /\ feq (overfit_pct p) zero = false ->
   select_callbacks isdir p arch log_path model_path model_folder w
   = Returned None (mk_world (pearson_calculator w) (logged w ++ [off_record])))
  /\ (debug p = false \/ feq (overfit_pct p) zero = true ->
      exists msg,
        let w1 := mk_world (pearson_calculator w) (logged w ++ [info_record msg]) in
        (isdir log_path && isdir model_path && isdir model_folder = false ->
         select_callbacks isdir p arch log_path model_path model_folder w
         = Raised (AssertionError (Some dirs_message)) w1)
        /\ (isdir log_path && isdir model_path && isdir model_folder = true ->
            exists cb,
              select_callbacks isdir p arch log_path model_path model_folder w
              = Returned (Some cb) w1
              /\ filepath cb = os_path_join model_folder (ckpt_pattern (monitor cb))
              /\ cb_prefix cb = name p /\ cb_patience cb = patience p)).
Proof.
  unfold select_callbacks. split.
  - intros [-> ->]. reflexivity.
  - intro H.
    assert (Hoff : debug p && negb (feq (overfit_pct p) zero) = false).
    { destruct H as [-> | ->]; [reflexivity | apply andb_false_r]. }
    rewrite Hoff.
    destruct (str_contains "categoric" arch);
      eexists; cbv zeta; split; intro D;
      unfold bind, logging_info, logging, assert_, ret, raise; rewrite D;
      try reflexivity; eexists; repeat split; reflexivity.
Qed.

Lemma callbacks_off_only_with_both_witness :
  exists cb w1,
    select_callbacks all_dirs debug_only "gen" "logs" "models" "models/run" (fresh [])
    = Returned (Some cb) w1
    /\ cb_patience cb = 5%Z.
Proof.
  destruct (proj2 (@callbacks_off_only_with_both all_dirs debug_only "gen" "logs"
                     "models" "models/run" (fresh []))
              (or_intror eq_refl)) as (msg & _ & S).
  destruct (S eq_refl) as (cb & E & _ & _ & P).
  exists cb. eexists. split; [exact E | exact P].
Defined.
